(** * Lead scoring engine of the B2B sales intelligence platform

    A shallow embedding of [src/server.js]: the class [JobAnalysisEngine]
    (job-title analysis, company analysis, score composition, priority
    mapping, insight generation) and the batch request handler that calls it.

    JavaScript numbers are IEEE 754 binary64 values; they are modelled by the
    Standard Library's [spec_float] at precision 53 and maximal exponent 1024,
    whose operations round to nearest, ties to even, as the language does.
    Exceptions are modelled by a small error monad. *)

From Stdlib Require Import ZArith List String Ascii Bool Lia.
From Stdlib Require Import Floats.SpecFloat.
Import ListNotations.

Local Open Scope string_scope.
Local Open Scope Z_scope.

(** ** Numbers *)

Module JSNumber.

Definition number := spec_float.

Definition prec : Z := 53.
Definition emax : Z := 1024.

Definition NaN : number := S754_nan.
Definition Infinity : number := S754_infinity false.

(** An integer literal: the nearest double (exact below 2^53). *)
Definition of_Z (z : Z) : number := binary_normalize prec emax z 0 false.

Definition mul (x y : number) : number := SFmul prec emax x y.
Definition div (x y : number) : number := SFdiv prec emax x y.

(** A decimal literal [n / 10^k], such as [1.15 = dec 115 2]: the source
    text denotes the double nearest to the decimal fraction, which is what
    the correctly rounded quotient of two exact integers gives. *)
Definition dec (n : Z) (k : Z) : number := div (of_Z n) (of_Z (10 ^ k)).

(** [x >= y], [x <= y], [x > y] and [x < y]; every comparison with NaN is
    false. *)
Definition ge (x y : number) : bool := SFleb y x.
Definition le (x y : number) : bool := SFleb x y.
Definition gt (x y : number) : bool := SFltb y x.
Definition lt (x y : number) : bool := SFltb x y.

Definition is_nan (x : number) : bool :=
  match x with S754_nan => true | _ => false end.

(** [Math.min(x, y)]: NaN when either argument is NaN, and [-0] counts as
    smaller than [+0]. *)
Definition Math_min (x y : number) : number :=
  if is_nan x || is_nan y then NaN
  else if lt x y then x
  else if lt y x then y
  else match x with S754_zero true => x | _ => y end.

(** [Math.round(x)]: the integer nearest to [x], ties towards +Infinity.
    NaN, the infinities, the zeros and the doubles that are already
    integers are returned as they are; otherwise [x = +-m / 2^k] with
    [k > 0] and the result is [floor (x + 1/2)], computed exactly on
    integers (a result of zero keeps the sign of [x]). *)
Definition Math_round (x : number) : number :=
  match x with
  | S754_finite s m e =>
      if 0 <=? e then x
      else
        let k := - e in
        let sm := if s then Zneg m else Zpos m in
        binary_normalize prec emax ((2 * sm + 2 ^ k) / 2 ^ (k + 1)) 0 s
  | _ => x
  end.

(** The mathematical integer a double denotes, when it denotes one. *)
Definition to_Z (x : number) : option Z :=
  match x with
  | S754_zero _ => Some 0
  | S754_finite s m e =>
      let sm := if s then Zneg m else Zpos m in
      if 0 <=? e then Some (sm * 2 ^ e)
      else if (sm mod 2 ^ (- e)) =? 0 then Some (sm / 2 ^ (- e))
      else None
  | _ => None
  end.

(** A well-formed double: the mantissa and exponent are in canonical form. *)
Definition valid (x : number) : bool := valid_binary prec emax x.

End JSNumber.

Import JSNumber.

(** ** Values

    The values a parsed JSON body is made of, with the language's notion of
    truthiness and its [||] operator. *)

#[warnings="-register-all"]
Inductive value : Type :=
| VUndefined
| VNull
| VBool (b : bool)
| VNum (n : number)
| VStr (s : string)
| VArr (items : list value)
| VObj (fields : list (string * value)).

Definition truthy (v : value) : bool :=
  match v with
  | VUndefined | VNull => false
  | VBool b => b
  | VNum (S754_zero _) | VNum S754_nan => false
  | VNum _ => true
  | VStr s => negb (String.eqb s "")
  | VArr _ | VObj _ => true
  end.

(** [a || b] *)
Definition js_or (a b : value) : value := if truthy a then a else b.

(** ** Exceptions *)

Inductive error : Type :=
| TypeError (message : string).

Definition message (e : error) : string :=
  match e with TypeError m => m end.

Inductive result (A : Type) : Type :=
| Return (a : A)
| Throw (e : error).

Arguments Return {A} a.
Arguments Throw {A} e.

Definition bind {A B : Type} (r : result A) (k : A -> result B) : result B :=
  match r with
  | Return a => k a
  | Throw e => Throw e
  end.

Notation "x <- r ;; k" := (bind r (fun x => k))
  (at level 61, r at next level, right associativity).

(** ** Strings

    Strings are sequences of 8-bit characters, which covers the ASCII
    titles and industries the keyword tables are written in. [toLowerCase]
    maps the ASCII capitals to their small letters and leaves every other
    character as it is. *)

Definition lower_char (c : ascii) : ascii :=
  let n := N_of_ascii c in
  if ((65 <=? n) && (n <=? 90))%N then ascii_of_N (n + 32) else c.

Fixpoint toLowerCase (s : string) : string :=
  match s with
  | EmptyString => EmptyString
  | String c s' => String (lower_char c) (toLowerCase s')
  end.

(** [s.includes(keyword)]: [keyword] occurs in [s] at some position. *)
Fixpoint includes (s keyword : string) : bool :=
  String.prefix keyword s ||
  match s with
  | EmptyString => false
  | String _ s' => includes s' keyword
  end.

(** The method call [v.toLowerCase()] on a truthy value [v]: only strings
    have the method. *)
Definition call_toLowerCase (v : value) : result string :=
  match v with
  | VStr s => Return (toLowerCase s)
  | _ => Throw (TypeError "toLowerCase is not a function")
  end.

(** ** Data model *)

Inductive Level : Type :=
| c_level | director | manager | specialist | individual_contributor
| unknown_level.

Inductive Tier : Type :=
| enterprise | large | medium | small | startup.

Inductive Priority : Type :=
| high | medium_priority | low | very_low.

(** The job record of a lead; only [title] is read. *)
Record JobData : Type := mkJob { title : value }.

(** The company record of a lead. [employees] is a number or absent (the
    coercion of other values to numbers is outside this model); the other
    fields are arbitrary values, absent ones being [VUndefined]. *)
Record CompanyData : Type := mkCompany {
  name : value;
  employees : option number;
  industry : value;
  location : value
}.

Record JobAnalysis : Type := mkJobAnalysis {
  score : Z;
  level : Level;
  department : string
}.

Record CompanyAnalysis : Type := mkCompanyAnalysis {
  tier : Tier;
  weight : Z;
  ca_employees : option number;
  ca_industry : value;
  ca_location : value
}.

Record LeadAnalysis : Type := mkLeadAnalysis {
  totalScore : number;
  jobAnalysis : JobAnalysis;
  companyAnalysis : CompanyAnalysis;
  priority : Priority
}.

Record TierData : Type := mkTierData {
  td_weight : Z;
  employee_range : number * number
}.

(** ** The engine's tables, in declaration order

    [Object.entries] enumerates string keys in insertion order, so each table
    is an association list. The weights are integer literals and are kept as
    integers until they enter floating-point arithmetic. *)

Definition jobTitleWeights : list (string * Z) :=
  [ ("ceo", 100); ("chief executive officer", 100);
    ("cto", 95); ("chief technology officer", 95);
    ("cfo", 95); ("chief financial officer", 95);
    ("vp", 90); ("vice president", 90);
    ("director", 85); ("senior director", 87);
    ("manager", 70); ("senior manager", 75);
    ("lead", 65); ("senior lead", 68);
    ("specialist", 50); ("senior specialist", 55);
    ("analyst", 45); ("senior analyst", 50);
    ("coordinator", 40); ("associate", 35);
    ("assistant", 30); ("intern", 20) ].

Definition departmentWeights : list (string * Z) :=
  [ ("sales", 95); ("business development", 90);
    ("marketing", 85); ("product", 80);
    ("engineering", 75); ("technology", 75);
    ("operations", 70); ("finance", 65);
    ("hr", 60); ("human resources", 60);
    ("legal", 55); ("admin", 40) ].

Definition companyTiers : list (Tier * TierData) :=
  [ (enterprise, mkTierData 100 (of_Z 1000, Infinity));
    (large, mkTierData 85 (of_Z 250, of_Z 999));
    (medium, mkTierData 70 (of_Z 50, of_Z 249));
    (small, mkTierData 55 (of_Z 10, of_Z 49));
    (startup, mkTierData 40 (of_Z 1, of_Z 9)) ].

Definition industryMultipliers : list (string * number) :=
  [ ("technology", dec 11 1);
    ("software", dec 11 1);
    ("saas", dec 115 2);
    ("finance", dec 105 2);
    ("healthcare", dec 105 2);
    ("manufacturing", dec 95 2);
    ("retail", dec 9 1) ].

(** [industryMultipliers] is an object literal, so a property read on it that
    finds no own property continues on [Object.prototype], whose properties
    are functions, except [__proto__], which reads as [Object.prototype]
    itself. *)
Definition Object_prototype_keys : list string :=
  [ "constructor"; "__defineGetter__"; "__defineSetter__"; "hasOwnProperty";
    "__lookupGetter__"; "__lookupSetter__"; "isPrototypeOf";
    "propertyIsEnumerable"; "toString"; "valueOf"; "__proto__";
    "toLocaleString" ].

(** ** analyzeJobTitle *)

Definition unknown_job : JobAnalysis := mkJobAnalysis 0 unknown_level "unknown".

(** The level assigned when a matching keyword of weight [w] becomes the
    best one. *)
Definition level_of_weight (w : Z) : Level :=
  if w >=? 90 then c_level
  else if w >=? 80 then director
  else if w >=? 65 then manager
  else if w >=? 45 then specialist
  else individual_contributor.

(** One iteration of the first loop, on the state [(bestScore, level)]. *)
Definition level_step (normalizedTitle : string) (st : Z * Level)
  (entry : string * Z) : Z * Level :=
  let '(bestScore, lvl) := st in
  let '(keyword, w) := entry in
  if includes normalizedTitle keyword then
    if w >? bestScore then (w, level_of_weight w) else (bestScore, lvl)
  else (bestScore, lvl).

(** The second loop, which stops at the first department found. *)
Fixpoint department_loop (normalizedTitle : string) (table : list (string * Z))
  (dept : string) : string :=
  match table with
  | [] => dept
  | (d, _) :: rest =>
      if includes normalizedTitle d then d
      else department_loop normalizedTitle rest dept
  end.

Definition analyzeJobTitle (t : value) : result JobAnalysis :=
  if negb (truthy t) then Return unknown_job
  else
    normalizedTitle <- call_toLowerCase t ;;
    let '(bestScore, lvl) :=
      fold_left (level_step normalizedTitle) jobTitleWeights
        (0, individual_contributor) in
    let dept := department_loop normalizedTitle departmentWeights "unknown" in
    Return (mkJobAnalysis bestScore lvl dept).

(** ** analyzeCompany *)

(** [employees >= min && employees <= max]; an absent [employees] is
    [undefined], which compares as NaN. *)
Definition employees_number (e : option number) : number :=
  match e with
  | Some n => n
  | None => NaN
  end.

Definition in_range (n : number) (d : TierData) : bool :=
  let '(min, max) := employee_range d in
  ge n min && le n max.

(** The loop over the tiers, on the state [(tier, weight)], leaving at the
    first tier whose range holds the employee count. *)
Fixpoint tier_loop (n : number) (table : list (Tier * TierData))
  (st : Tier * Z) : Tier * Z :=
  match table with
  | [] => st
  | (tierName, tierData) :: rest =>
      if in_range n tierData then (tierName, td_weight tierData)
      else tier_loop n rest st
  end.

(** Destructuring an absent company record throws. *)
Definition analyzeCompany (companyData : option CompanyData)
  : result CompanyAnalysis :=
  match companyData with
  | None => Throw (TypeError "Cannot destructure companyData")
  | Some c =>
      let '(t, w) :=
        tier_loop (employees_number (employees c)) companyTiers (startup, 40) in
      Return (mkCompanyAnalysis t w (employees c)
                (js_or (industry c) (VStr "unknown"))
                (js_or (location c) (VStr "unknown")))
  end.

(** ** calculateLeadScore *)

Fixpoint lookup {A : Type} (key : string) (table : list (string * A))
  : option A :=
  match table with
  | [] => None
  | (k, v) :: rest => if String.eqb key k then Some v else lookup key rest
  end.

Definition inherited (key : string) : bool :=
  existsb (String.eqb key) Object_prototype_keys.

Definition number_truthy (n : number) : bool := truthy (VNum n).

(** [industryMultipliers[industryKey] || 1.0], as the number later
    multiplied into the score: an own property gives its multiplier, a
    property inherited from [Object.prototype] gives a function or object,
    which is truthy and converts to NaN, and a missing property gives
    [undefined] and hence [1.0]. *)
Definition industryMultiplier (industryKey : string) : number :=
  match lookup industryKey industryMultipliers with
  | Some m => if number_truthy m then m else of_Z 1
  | None => if inherited industryKey then NaN else of_Z 1
  end.

Definition getPriorityLevel (s : number) : Priority :=
  if ge s (of_Z 80) then high
  else if ge s (of_Z 60) then medium_priority
  else if ge s (of_Z 40) then low
  else very_low.

Definition sales_related (dept : string) : bool :=
  String.eqb dept "sales" || String.eqb dept "business development".

(** The value of [score] after the cap, before rounding. *)
Definition capped_score (ja : JobAnalysis) (ca : CompanyAnalysis)
  (industryKey : string) : number :=
  let s := of_Z (score ja) in
  let s := mul s (div (of_Z (weight ca)) (of_Z 100)) in
  let s := if sales_related (department ja) then mul s (dec 12 1) else s in
  let s := mul s (industryMultiplier industryKey) in
  Math_min s (of_Z 100).

(** Reading [jobData.title] throws when the job record is absent. *)
Definition calculateLeadScore (jobData : option JobData)
  (companyData : option CompanyData) : result LeadAnalysis :=
  t <- match jobData with
       | Some j => Return (title j)
       | None => Throw (TypeError "Cannot read properties of undefined")
       end ;;
  ja <- analyzeJobTitle t ;;
  ca <- analyzeCompany companyData ;;
  industryKey <- call_toLowerCase (ca_industry ca) ;;
  let s := capped_score ja ca industryKey in
  Return (mkLeadAnalysis (Math_round s) ja ca (getPriorityLevel s)).

(** ** generateInsights *)

Definition insight_c_level : string :=
  "High-value C-level executive - excellent decision-making authority".
Definition insight_sales : string :=
  "Sales professional - likely understands value of sales tools".
Definition insight_enterprise : string :=
  "Large enterprise - potential for high-value deal".
Definition insight_prime : string :=
  "Prime prospect - should be prioritized for immediate outreach".

Definition Level_eqb (a b : Level) : bool :=
  match a, b with
  | c_level, c_level | director, director | manager, manager
  | specialist, specialist
  | individual_contributor, individual_contributor
  | unknown_level, unknown_level => true
  | _, _ => false
  end.

Definition Tier_eqb (a b : Tier) : bool :=
  match a, b with
  | enterprise, enterprise | large, large | medium, medium
  | small, small | startup, startup => true
  | _, _ => false
  end.

(** [insights.push(s)] *)
Definition push (insights : list string) (s : string) : list string :=
  insights ++ [s].

Definition generateInsights (analysis : LeadAnalysis) : list string :=
  let insights := [] in
  let insights :=
    if Level_eqb (level (jobAnalysis analysis)) c_level
    then push insights insight_c_level else insights in
  let insights :=
    if String.eqb (department (jobAnalysis analysis)) "sales"
    then push insights insight_sales else insights in
  let insights :=
    if Tier_eqb (tier (companyAnalysis analysis)) enterprise
    then push insights insight_enterprise else insights in
  let insights :=
    if ge (totalScore analysis) (of_Z 80)
    then push insights insight_prime else insights in
  insights.

(** ** The batch handler *)

(** An entry of the [leads] array. *)
Record Lead : Type := mkLead {
  id : value;
  job : option JobData;
  company : option CompanyData
}.

Inductive BatchResult : Type :=
| Success (rid : value) (analysis : LeadAnalysis) (insights : list string)
| Failure (rid : value) (err : string).

Definition result_id (r : BatchResult) : value :=
  match r with
  | Success i _ _ => i
  | Failure i _ => i
  end.

Definition success (r : BatchResult) : bool :=
  match r with
  | Success _ _ _ => true
  | Failure _ _ => false
  end.

(** Reading a property of an array entry; the entry [null] has none. *)
Definition get {A : Type} (field : Lead -> A) (lead : option Lead) : result A :=
  match lead with
  | Some l => Return (field l)
  | None => Throw (TypeError "Cannot read properties of null")
  end.

Definition index_value (index : nat) : value := VNum (of_Z (Z.of_nat index)).

(** The callback of [leads.map]: the [try] block, and the [catch] block,
    which reads [lead.id] again. *)
Definition analyze_entry (lead : option Lead) (index : nat)
  : result BatchResult :=
  let attempt :=
    j <- get job lead ;;
    c <- get company lead ;;
    analysis <- calculateLeadScore j c ;;
    let insights := generateInsights analysis in
    i <- get id lead ;;
    Return (Success (js_or i (index_value index)) analysis insights) in
  match attempt with
  | Return r => Return r
  | Throw e =>
      i <- get id lead ;;
      Return (Failure (js_or i (index_value index)) (message e))
  end.

(** [leads.map(callback)]: an exception leaving the callback leaves [map]. *)
Fixpoint map_entries (leads : list (option Lead)) (index : nat)
  : result (list BatchResult) :=
  match leads with
  | [] => Return []
  | lead :: rest =>
      r <- analyze_entry lead index ;;
      rs <- map_entries rest (S index) ;;
      Return (r :: rs)
  end.

Inductive Response : Type :=
| Json200 (processed : nat) (results : list BatchResult)
| Json400 (err : string)
| Json500 (err : string).

(** The handler of [POST /api/batch-analyze]; [leads] is [None] when the
    body's [leads] is not an array. *)
Definition batch_analyze (leads : option (list (option Lead))) : Response :=
  match leads with
  | None => Json400 "Leads must be an array"
  | Some ls =>
      match map_entries ls 0 with
      | Return results => Json200 (List.length results) results
      | Throw _ => Json500 "Internal server error during batch analysis"
      end
  end.

(** ** Properties phrased as the specification words them *)

(** [keyword] is a substring of [s]. *)
Definition substring_of (keyword s : string) : Prop :=
  exists pre post, s = (pre ++ keyword ++ post)%string.

(** A title that is a string or absent. *)
Definition title_value (t : option string) : value :=
  match t with
  | Some s => VStr s
  | None => VUndefined
  end.

(** [sc] is the highest weight among the job-title keywords that are
    substrings of the title, and 0 when there is none. *)
Definition score_is_max (normalizedTitle : string) (sc : Z) : Prop :=
  (forall kw w, In (kw, w) jobTitleWeights ->
                substring_of kw normalizedTitle -> w <= sc) /\
  ((exists kw, In (kw, sc) jobTitleWeights /\ substring_of kw normalizedTitle)
   \/
   (sc = 0 /\
    forall kw w, In (kw, w) jobTitleWeights ->
                 ~ substring_of kw normalizedTitle)).

(** The level that goes with a score. *)
Definition level_by_score (sc : Z) (l : Level) : Prop :=
  (90 <= sc -> l = c_level) /\
  (80 <= sc < 90 -> l = director) /\
  (65 <= sc < 80 -> l = manager) /\
  (45 <= sc < 65 -> l = specialist) /\
  (sc < 45 -> l = individual_contributor).

(** [x] is the first entry of [table] that satisfies [f]. *)
Definition first_match {A : Type} (f : A -> bool) (table : list A) (x : A)
  : Prop :=
  exists pre post,
    table = (pre ++ x :: post)%list /\ f x = true /\
    forall y, In y pre -> f y = false.

(** [d] is the first department keyword, in declaration order, that is a
    substring of the title, and "unknown" when there is none. *)
Definition department_is_first (normalizedTitle : string) (d : string) : Prop :=
  (exists w, exists pre post,
      departmentWeights = (pre ++ (d, w) :: post)%list /\
      substring_of d normalizedTitle /\
      forall d' w', In (d', w') pre -> ~ substring_of d' normalizedTitle)
  \/
  (d = "unknown" /\
   forall d' w', In (d', w') departmentWeights ->
                 ~ substring_of d' normalizedTitle).

(** The largest weight among the keywords of a table that occur in the
    title, 0 when none does. *)
Definition max_matching_weight (normalizedTitle : string)
  (table : list (string * Z)) : Z :=
  fold_right Z.max 0
    (map snd (filter (fun kw => includes normalizedTitle (fst kw)) table)).

(** The first department keyword, in table order, that occurs in the
    title. *)
Definition first_department (normalizedTitle : string) : string :=
  match find (fun kw => includes normalizedTitle (fst kw)) departmentWeights with
  | Some (d, _) => d
  | None => "unknown"
  end.


(** The four insight rules, as a list of conditions and texts. *)
Definition insight_rules : list ((LeadAnalysis -> bool) * string) :=
  [ (fun a => Level_eqb (level (jobAnalysis a)) c_level, insight_c_level);
    (fun a => String.eqb (department (jobAnalysis a)) "sales", insight_sales);
    (fun a => Tier_eqb (tier (companyAnalysis a)) enterprise, insight_enterprise);
    (fun a => ge (totalScore a) (of_Z 80), insight_prime) ].


(** The employee ranges of the tiers as intervals of integers. *)
Definition in_spec_range (t : Tier) (z : Z) : bool :=
  match t with
  | enterprise => 1000 <=? z
  | large => (250 <=? z) && (z <=? 999)
  | medium => (50 <=? z) && (z <=? 249)
  | small => (10 <=? z) && (z <=? 49)
  | startup => (1 <=? z) && (z <=? 9)
  end.

(** The weight that goes with each tier. *)
Definition tier_weight (t : Tier) : Z :=
  match t with
  | enterprise => 100
  | large => 85
  | medium => 70
  | small => 55
  | startup => 40
  end.

(** The tier and weight of [ca] are those of the first tier, in declaration
    order, whose range holds [n], and "startup" with weight 40 when no range
    does. *)
Definition tier_is_first (n : number) (ca : CompanyAnalysis) : Prop :=
  (exists d,
      first_match (fun td => in_range n (snd td)) companyTiers (tier ca, d) /\
      weight ca = td_weight d)
  \/
  ((forall td, In td companyTiers -> in_range n (snd td) = false) /\
   tier ca = startup /\ weight ca = 40).

(** The capped score as a function of the four quantities it depends on:
    the job score, the company weight, whether the department earns the
    bonus, and the industry multiplier. *)
Definition compose (sc w : Z) (bonus : bool) (m : number) : number :=
  let s := mul (of_Z sc) (div (of_Z w) (of_Z 100)) in
  let s := if bonus then mul s (dec 12 1) else s in
  Math_min (mul s m) (of_Z 100).

(** The values these quantities can take. *)
Definition job_scores : list Z := 0 :: map snd jobTitleWeights.

Definition tier_weights : list Z :=
  40 :: map (fun td => td_weight (snd td)) companyTiers.

Definition multiplier_values : list number :=
  of_Z 1 :: map snd industryMultipliers.

Definition all_scores_satisfy (P : number -> bool) (scs : list Z)
  (ms : list number) : bool :=
  forallb (fun sc =>
    forallb (fun w =>
      forallb (fun b =>
        forallb (fun m => P (compose sc w b m)) ms)
        [true; false])
      tier_weights)
    scs.

Definition Priority_eqb (a b : Priority) : bool :=
  match a, b with
  | high, high | medium_priority, medium_priority | low, low
  | very_low, very_low => true
  | _, _ => false
  end.



Definition is_positive_zero (x : number) : bool :=
  match x with
  | S754_zero false => true
  | _ => false
  end.

Definition integer_in_range (x : number) : bool :=
  match to_Z x with
  | Some z => (0 <=? z) && (z <=? 100)
  | None => false
  end.

(** ** Sample inputs *)

Definition company_of (e : Z) (ind : value) : CompanyData :=
  mkCompany VUndefined (Some (of_Z e)) ind VUndefined.

Definition job_of (t : string) : JobData := mkJob (VStr t).

Definition lead_of (i : value) (t : string) (e : Z) (ind : value)
  : option Lead :=
  Some (mkLead i (Some (job_of t)) (Some (company_of e ind))).

(** The result of the [map] callback on an entry that is an object. *)
Definition entry_result (l : Lead) (index : nat) : BatchResult :=
  match calculateLeadScore (job l) (company l) with
  | Return a =>
      Success (js_or (id l) (index_value index)) a (generateInsights a)
  | Throw e => Failure (js_or (id l) (index_value index)) (message e)
  end.

Fixpoint entry_results (ls : list Lead) (index : nat) : list BatchResult :=
  match ls with
  | [] => []
  | l :: rest => entry_result l index :: entry_results rest (S index)
  end.

Definition sample_analysis : LeadAnalysis :=
  mkLeadAnalysis (of_Z 100)
    (mkJobAnalysis 90 c_level "business development")
    (mkCompanyAnalysis enterprise 100 (Some (of_Z 5000))
       (VStr "unknown") (VStr "unknown"))
    high.

(** What the engine returns for a manager at a company of 300. *)
Definition manager_result : LeadAnalysis :=
  mkLeadAnalysis (of_Z 60)
    (mkJobAnalysis 70 manager "unknown")
    (mkCompanyAnalysis large 85 (Some (of_Z 300))
       (VStr "unknown") (VStr "unknown"))
    low.

(** A batch whose second entry has no [job] and a batch whose second entry
    is [null]. *)
Definition lead_without_job : option Lead :=
  Some (mkLead (VStr "b") None (Some (company_of 25 VUndefined))).

Definition batch_missing_job : list (option Lead) :=
  [ lead_of (VStr "a") "CEO" 1500 (VStr "technology");
    lead_without_job;
    lead_of VUndefined "Manager" 300 VUndefined ].

Definition batch_with_null : list (option Lead) :=
  [ lead_of (VStr "a") "CEO" 1500 (VStr "technology");
    None;
    lead_of VUndefined "Manager" 300 VUndefined ].

(** A batch whose ids are the numbers 7 and 0. *)
Definition batch_numeric_ids : list (option Lead) :=
  [ lead_of (VNum (of_Z 7)) "CEO" 1500 (VStr "technology");
    lead_of (VNum (of_Z 0)) "Manager" 300 VUndefined ].

(** ** Further notions used in the statements *)

(** A value on which [!v] holds or that is a string. *)
Definition string_or_falsy (v : value) : Prop :=
  truthy v = false \/ exists s, v = VStr s.

(** The priorities from the lowest to the highest. *)
Definition priority_rank (p : Priority) : Z :=
  match p with
  | very_low => 0
  | low => 1
  | medium_priority => 2
  | high => 3
  end.

(** [a < n < b] on numbers. *)
Definition strictly_between (a b : Z) (n : number) : Prop :=
  lt (of_Z a) n = true /\ lt n (of_Z b) = true.

Definition all_inputs_satisfy (P : Z -> Z -> bool -> number -> bool)
  (scs : list Z) (ms : list number) : bool :=
  forallb (fun sc =>
    forallb (fun w =>
      forallb (fun b =>
        forallb (fun m => P sc w b m) ms)
        [true; false])
      tier_weights)
    scs.

(** High priority needs a job score of at least 65 and a company weight of
    at least 70. *)
Definition high_needs (sc w : Z) (b : bool) (m : number) : bool :=
  negb (Priority_eqb (getPriorityLevel (compose sc w b m)) high) ||
  ((65 <=? sc) && (70 <=? w)).

(** The rounded score of at least 80 goes with the priority "high", or with
    the rounded score 80 and the priority "medium". *)
Definition prime_and_high (s : number) : bool :=
  (negb (Priority_eqb (getPriorityLevel s) high) ||
   ge (Math_round s) (of_Z 80)) &&
  (negb (ge (Math_round s) (of_Z 80)) ||
   Priority_eqb (getPriorityLevel s) high ||
   (Priority_eqb (getPriorityLevel s) medium_priority &&
    match to_Z (Math_round s) with Some z => z =? 80 | None => false end)).

(** The bonus for a sales-related department lowers neither the rounded
    score nor the priority. *)
Definition bonus_not_lower (sc w : Z) (b : bool) (m : number) : bool :=
  le (Math_round (compose sc w false m)) (Math_round (compose sc w true m)) &&
  (priority_rank (getPriorityLevel (compose sc w false m)) <=?
   priority_rank (getPriorityLevel (compose sc w true m))).

(** Further sample inputs. *)
Definition company_of_number (n : number) : CompanyData :=
  mkCompany VUndefined (Some n) VUndefined VUndefined.

Definition sample_lead : Lead :=
  mkLead (VStr "a") (Some (job_of "CEO"))
    (Some (company_of 1500 (VStr "technology"))).

Definition ceo_result : LeadAnalysis :=
  mkLeadAnalysis (of_Z 100)
    (mkJobAnalysis 100 c_level "unknown")
    (mkCompanyAnalysis enterprise 100 (Some (of_Z 1500))
       (VStr "technology") (VStr "unknown"))
    high.

Definition sales_manager_result : LeadAnalysis :=
  mkLeadAnalysis (of_Z 71)
    (mkJobAnalysis 70 manager "sales")
    (mkCompanyAnalysis large 85 (Some (of_Z 300))
       (VStr "unknown") (VStr "unknown"))
    medium_priority.

(** * Verification *)

(** ** Strings *)

Lemma prefix_app (k s : string) :
  String.prefix k s = true <-> exists post, s = (k ++ post)%string.
Proof.
  revert s. induction k as [|a k IH]; intros [|b s]; simpl.
  - split; intros _; [now exists EmptyString | reflexivity].
  - split; intros _; [now exists (String b s) | reflexivity].
  - split; [discriminate | intros [post H]; discriminate].
  - destruct (ascii_dec a b) as [->|Hab].
    + rewrite IH. split; intros [post H]; exists post.
      * now rewrite H.
      * now injection H.
    + split; [discriminate | intros [post H]; injection H; congruence].
Qed.

Lemma includes_spec (s k : string) :
  includes s k = true <-> substring_of k s.
Proof.
  induction s as [|c s IH]; cbn [includes].
  - rewrite orb_false_r, prefix_app. split.
    + intros [post H]. exists EmptyString, post. exact H.
    + intros [pre [post H]]. destruct pre; [|discriminate].
      exists post. exact H.
  - rewrite orb_true_iff, prefix_app, IH. split.
    + intros [[post H] | [pre [post H]]].
      * exists EmptyString, post. exact H.
      * exists (String c pre), post. simpl. now rewrite H.
    + intros [pre [post H]]. destruct pre as [|c' pre]; simpl in H.
      * left. exists post. exact H.
      * right. exists pre, post. now injection H.
Qed.

Lemma includes_false (s k : string) :
  includes s k = false <-> ~ substring_of k s.
Proof.
  rewrite <- includes_spec. destruct (includes s k); split; intros H;
    try reflexivity; try discriminate; try congruence.
Qed.

(** ** First match in a table *)

Lemma find_first {A : Type} (f : A -> bool) (l : list A) :
  match find f l with
  | Some x => first_match f l x
  | None => forall y, In y l -> f y = false
  end.
Proof.
  induction l as [|a l IH]; simpl.
  - intros y [].
  - destruct (f a) eqn:Ha.
    + exists [], l. repeat split; auto. intros y [].
    + destruct (find f l) as [x|].
      * destruct IH as [pre [post [E [Hx Hpre]]]].
        exists (a :: pre), post. rewrite E. repeat split; auto.
        intros y [<-|Hy]; auto.
      * intros y [<-|Hy]; auto.
Qed.

(** ** The two loops of analyzeJobTitle *)

Lemma max_matching_weight_nonneg nt table :
  0 <= max_matching_weight nt table.
Proof.
  unfold max_matching_weight.
  induction table as [|[k w] table IH]; simpl; [lia|].
  destruct (includes nt k); simpl; lia.
Qed.

Lemma level_loop_max nt table : forall best,
  0 <= best ->
  fold_left (level_step nt) table (best, level_of_weight best) =
  (Z.max best (max_matching_weight nt table),
   level_of_weight (Z.max best (max_matching_weight nt table))).
Proof.
  induction table as [|[k w] table IH]; intros best Hb.
  - unfold max_matching_weight; simpl. now rewrite Z.max_l.
  - pose proof (max_matching_weight_nonneg nt table) as Hn.
    unfold max_matching_weight in *. simpl.
    destruct (includes nt k); simpl.
    + destruct (w >? best) eqn:Hw.
      * rewrite IH by lia. f_equal; [|f_equal]; lia.
      * rewrite IH by lia. f_equal; [|f_equal]; lia.
    + now apply IH.
Qed.

Lemma max_matching_weight_bound nt table kw w :
  In (kw, w) table -> includes nt kw = true ->
  w <= max_matching_weight nt table.
Proof.
  unfold max_matching_weight.
  induction table as [|[k v] table IH]; simpl; [intros []|].
  intros [E|Hin] Hm.
  - injection E as -> ->. rewrite Hm. simpl. lia.
  - specialize (IH Hin Hm). destruct (includes nt k); simpl; lia.
Qed.

Lemma max_matching_weight_attained nt table :
  (exists kw, In (kw, max_matching_weight nt table) table /\
              includes nt kw = true)
  \/ max_matching_weight nt table = 0.
Proof.
  unfold max_matching_weight.
  induction table as [|[k v] table IH]; simpl; [now right|].
  destruct (includes nt k) eqn:Hm; simpl.
  - destruct (Z.max_spec v
      (fold_right Z.max 0
         (map snd (filter (fun kw => includes nt (fst kw)) table))))
      as [[Hlt ->]|[Hle ->]].
    + destruct IH as [[kw [Hin Hk]]|H0].
      * left. exists kw. auto.
      * now right.
    + left. exists k. auto.
  - destruct IH as [[kw [Hin Hk]]|H0]; [left; exists kw; auto | now right].
Qed.

Lemma job_weights_positive kw w : In (kw, w) jobTitleWeights -> 0 < w.
Proof.
  unfold jobTitleWeights. simpl.
  intros H. repeat (destruct H as [H|H]; [injection H as <- <-; lia|]).
  destruct H.
Qed.

Lemma max_matching_weight_is_max nt :
  score_is_max nt (max_matching_weight nt jobTitleWeights).
Proof.
  split.
  - intros kw w Hin Hs. apply max_matching_weight_bound with kw; auto.
    now apply includes_spec.
  - destruct (max_matching_weight_attained nt jobTitleWeights)
      as [[kw [Hin Hk]]|H0].
    + left. exists kw. split; auto. now apply includes_spec.
    + right. split; auto. intros kw w Hin Hs.
      apply includes_spec in Hs.
      pose proof (max_matching_weight_bound nt _ _ _ Hin Hs).
      pose proof (job_weights_positive _ _ Hin). lia.
Qed.

Lemma level_of_weight_by_score sc : level_by_score sc (level_of_weight sc).
Proof.
  unfold level_by_score, level_of_weight.
  repeat split; intros H;
    repeat match goal with
           | |- context [?a >=? ?b] =>
               let E := fresh in destruct (Z.geb_spec a b) as [E|E]
           end; try reflexivity; lia.
Qed.

Lemma level_of_weight_known w : level_of_weight w <> unknown_level.
Proof.
  unfold level_of_weight.
  repeat match goal with
         | |- context [?a >=? ?b] => destruct (a >=? b)
         end; discriminate.
Qed.

Lemma department_loop_find nt table d0 :
  department_loop nt table d0 =
  match find (fun kw => includes nt (fst kw)) table with
  | Some (d, _) => d
  | None => d0
  end.
Proof.
  induction table as [|[d w] table IH]; simpl; [reflexivity|].
  destruct (includes nt d); auto.
Qed.

Lemma first_department_is_first nt :
  department_is_first nt (first_department nt).
Proof.
  unfold first_department, department_is_first.
  pose proof (find_first (fun kw : string * Z => includes nt (fst kw))
                departmentWeights) as H.
  destruct (find _ departmentWeights) as [[d w]|].
  - left. destruct H as [pre [post [E [Hd Hpre]]]].
    exists w, pre, post. repeat split; auto.
    + now apply includes_spec.
    + intros d' w' Hin. apply includes_false. exact (Hpre _ Hin).
  - right. split; auto. intros d' w' Hin. apply includes_false.
    exact (H _ Hin).
Qed.

Lemma analyzeJobTitle_string s :
  s <> "" ->
  analyzeJobTitle (VStr s) =
  Return (mkJobAnalysis
            (max_matching_weight (toLowerCase s) jobTitleWeights)
            (level_of_weight (max_matching_weight (toLowerCase s) jobTitleWeights))
            (first_department (toLowerCase s))).
Proof.
  intros Hs.
  assert (Ht : truthy (VStr s) = true).
  { simpl. now destruct (String.eqb_spec s ""). }
  unfold analyzeJobTitle. rewrite Ht. cbn [negb call_toLowerCase bind].
  change individual_contributor with (level_of_weight 0).
  rewrite level_loop_max by lia.
  pose proof (max_matching_weight_nonneg (toLowerCase s) jobTitleWeights).
  rewrite Z.max_r by lia.
  rewrite department_loop_find. reflexivity.
Qed.

(** C5. [analyzeJobTitle] returns the record of score 0, level "unknown"
    and department "unknown" exactly when the title is absent or the empty
    string. For any other string it returns a record whose score is the
    highest weight among the job-title keywords that are substrings of the
    lowercased title (0 when there is none), whose level follows from that
    score by the thresholds 90, 80, 65 and 45, and whose department is the
    first department keyword in declaration order that is a substring of the
    lowercased title ("unknown" when there is none); [includes] holds exactly
    of substrings. *)
Theorem analyzeJobTitle_spec (t : option string) :
  (analyzeJobTitle (title_value t) =
     Return (mkJobAnalysis 0 unknown_level "unknown") <->
   (t = None \/ t = Some "")) /\
  (forall s, t = Some s -> s <> "" ->
     (forall kw, includes (toLowerCase s) kw = true <->
                 substring_of kw (toLowerCase s)) /\
     exists ja,
       analyzeJobTitle (title_value t) = Return ja /\
       score_is_max (toLowerCase s) (score ja) /\
       level_by_score (score ja) (level ja) /\
       department_is_first (toLowerCase s) (department ja)).
Proof.
  split.
  - destruct t as [s|]; cbn [title_value].
    + destruct (String.eqb_spec s "") as [->|Hs].
      * split; [now right | reflexivity].
      * rewrite (analyzeJobTitle_string s Hs). split.
        -- intros H. exfalso. injection H as _ H _.
           exact (level_of_weight_known _ H).
        -- intros [H|H]; [discriminate | injection H; contradiction].
    + split; [now left | reflexivity].
  - intros s -> Hs. split; [intros kw; apply includes_spec|].
    cbn [title_value]. rewrite (analyzeJobTitle_string s Hs).
    eexists. split; [reflexivity|]. cbn [score level department].
    split; [apply max_matching_weight_is_max|].
    split; [apply level_of_weight_by_score | apply first_department_is_first].
Qed.

(** The theorem at an absent title, at the empty title and at the title
    "VP of Engineering". *)
Lemma analyzeJobTitle_spec_witness :
  analyzeJobTitle VUndefined =
    Return (mkJobAnalysis 0 unknown_level "unknown") /\
  analyzeJobTitle (VStr "") =
    Return (mkJobAnalysis 0 unknown_level "unknown") /\
  exists ja,
    analyzeJobTitle (VStr "VP of Engineering") = Return ja /\
    score_is_max "vp of engineering" (score ja) /\
    level_by_score (score ja) (level ja) /\
    department_is_first "vp of engineering" (department ja).
Proof.
  split; [|split].
  - exact (proj2 (proj1 (analyzeJobTitle_spec None)) (or_introl eq_refl)).
  - exact (proj2 (proj1 (analyzeJobTitle_spec (Some "")))
             (or_intror eq_refl)).
  - refine (proj2 (proj2 (analyzeJobTitle_spec (Some "VP of Engineering"))
                     "VP of Engineering" eq_refl _)).
    discriminate.
Defined.

(** ** Doubles that denote positive integers *)

Lemma digits2_pos_size (m : positive) : digits2_pos m = Pos.size m.
Proof. induction m; simpl; congruence. Qed.

Lemma digits2_pos_bounds (m : positive) :
  2 ^ (Zpos (digits2_pos m) - 1) <= Zpos m < 2 ^ Zpos (digits2_pos m).
Proof.
  rewrite digits2_pos_size.
  pose proof (Pos.size_gt m) as Hgt. pose proof (Pos.size_le m) as Hle.
  apply Pos2Z.pos_lt_pos in Hgt. apply Pos2Z.pos_le_pos in Hle.
  rewrite Pos2Z.inj_pow in Hgt, Hle.
  split; [|exact Hgt].
  replace (Zpos (Pos.size m)) with (Z.succ (Zpos (Pos.size m) - 1)) in Hle
    by lia.
  rewrite Z.pow_succ_r in Hle by lia. lia.
Qed.

(** A well-formed double that denotes a positive integer [z] below 2^52 has
    a 53-bit mantissa [z * 2^k] and the exponent [-k], for some [k] from 1 to
    52; from 2^52 on its exponent is not negative. *)
Lemma positive_integer_shape (n : number) (z : Z) :
  valid n = true -> to_Z n = Some z -> 0 < z ->
  exists m e,
    n = S754_finite false m e /\
    2 ^ 52 <= Zpos m < 2 ^ 53 /\
    ((0 <= e /\ z = Zpos m * 2 ^ e) \/
     (-52 <= e <= -1 /\ Zpos m = z * 2 ^ (- e))).
Proof.
  intros Hv Hz Hpos. destruct n as [s|s| |s m e]; simpl in Hz;
    try discriminate; [injection Hz; lia|].
  unfold valid, valid_binary, bounded, canonical_mantissa, fexp, SpecFloat.emin,
    prec, emax in Hv.
  apply andb_true_iff in Hv. destruct Hv as [Hc He].
  apply Z.eqb_eq in Hc. apply Z.leb_le in He.
  pose proof (digits2_pos_bounds m) as Hd.
  set (d := Zpos (digits2_pos m)) in *.
  assert (Hd1 : 1 <= d) by (unfold d; lia).
  destruct (Z.leb_spec 0 e) as [He0|He0].
  - injection Hz as Hz.
    assert (s = false) as ->.
    { destruct s; auto. exfalso.
      assert (0 < 2 ^ e) by (apply Z.pow_pos_nonneg; lia). nia. }
    assert (d = 53) as Hd53 by lia. rewrite Hd53 in Hd.
    exists m, e. split; [reflexivity|]. split; [exact Hd|]. left. lia.
  - assert (Hk : 0 < 2 ^ (- e)) by (apply Z.pow_pos_nonneg; lia).
    destruct (Z.eqb_spec ((if s then Z.neg m else Z.pos m) mod 2 ^ (- e)) 0)
      as [Hm|Hm]; [|discriminate].
    injection Hz as Hz.
    apply Z.div_exact in Hm; [|lia]. rewrite Hz in Hm.
    assert (s = false) as ->.
    { destruct s; auto. exfalso. nia. }
    assert (Hle : 2 ^ (- e) <= Zpos m) by nia.
    assert (Hlt : 2 ^ (- e) < 2 ^ d) by lia.
    apply Z.pow_lt_mono_r_iff in Hlt; [|lia|lia].
    assert (d = 53) as Hd53 by lia. rewrite Hd53 in Hd.
    exists m, e. split; [reflexivity|]. split; [exact Hd|]. right.
    split; [lia|]. rewrite Hm. ring.
Qed.

Lemma SFleb_positive m1 e1 m2 e2 :
  SFleb (S754_finite false m1 e1) (S754_finite false m2 e2) =
  match e1 ?= e2 with
  | Lt => true
  | Gt => false
  | Eq => Zpos m1 <=? Zpos m2
  end.
Proof.
  unfold SFleb, SFcompare. destruct (e1 ?= e2); reflexivity.
Qed.

Ltac each_exponent e k fuel :=
  lazymatch fuel with
  | O => exfalso; lia
  | S ?f =>
      destruct (Z.eq_dec e k) as [->|?];
      [ | let k' := eval vm_compute in (k - 1) in each_exponent e k' f ]
  end.

Ltac decide_leb :=
  repeat match goal with
         | |- context [?a <=? ?b] => destruct (Z.leb_spec a b)
         end;
  simpl; try reflexivity; try lia.

(** On a double that denotes a positive integer, the range test of each tier
    is the test of the integer against the tier's interval. *)
Lemma in_range_integer (n : number) (z : Z) (t : Tier) (d : TierData) :
  valid n = true -> to_Z n = Some z -> 0 < z ->
  In (t, d) companyTiers ->
  in_range n d = in_spec_range t z.
Proof.
  intros Hv Hz Hpos Hin.
  destruct (positive_integer_shape n z Hv Hz Hpos) as [m [e [-> [Hm Hs]]]].
  clear Hv Hz.
  change (2 ^ 52) with 4503599627370496 in Hm.
  change (2 ^ 53) with 9007199254740992 in Hm.
  vm_compute in Hin.
  destruct Hs as [[He Hz]|[He Hz]].
  - assert (Hbig : 4503599627370496 <= z).
    { assert (1 <= 2 ^ e) by (apply Z.lt_pred_le, Z.pow_pos_nonneg; lia). nia. }
    clear Hz.
    destruct Hin as [H|[H|[H|[H|[H|[]]]]]]; injection H as <- <-;
      unfold in_range, in_spec_range, ge, le; cbn [employee_range];
      rewrite ?SFleb_positive;
      repeat match goal with
             | |- context [?a ?= e] => destruct (Z.compare_spec a e); try lia
             | |- context [e ?= ?a] => destruct (Z.compare_spec e a); try lia
             end; decide_leb.
  - each_exponent e (-1) 52%nat;
      match type of Hz with
      | context [2 ^ ?k] =>
          let v := eval vm_compute in (2 ^ k) in change (2 ^ k) with v in Hz
      end;
      (destruct Hin as [H|[H|[H|[H|[H|[]]]]]]; injection H as <- <-;
       unfold in_range, in_spec_range, ge, le; cbn [employee_range];
       rewrite ?SFleb_positive; cbn [Z.compare Z.opp Pos.compare Pos.compare_cont CompOpp];
       decide_leb).
Qed.

(** ** analyzeCompany *)

Lemma tier_loop_find n table st :
  tier_loop n table st =
  match find (fun td => in_range n (snd td)) table with
  | Some (t, d) => (t, td_weight d)
  | None => st
  end.
Proof.
  induction table as [|[t d] table IH]; simpl; [reflexivity|].
  destruct (in_range n d); auto.
Qed.

Lemma analyzeCompany_returns c :
  analyzeCompany (Some c) =
  Return (mkCompanyAnalysis
            (fst (tier_loop (employees_number (employees c)) companyTiers
                    (startup, 40)))
            (snd (tier_loop (employees_number (employees c)) companyTiers
                    (startup, 40)))
            (employees c)
            (js_or (industry c) (VStr "unknown"))
            (js_or (location c) (VStr "unknown"))).
Proof.
  unfold analyzeCompany.
  destruct (tier_loop (employees_number (employees c)) companyTiers
              (startup, 40)) as [t w].
  reflexivity.
Qed.

Lemma analyzeCompany_first_tier c :
  exists ca,
    analyzeCompany (Some c) = Return ca /\
    tier_is_first (employees_number (employees c)) ca.
Proof.
  rewrite analyzeCompany_returns. eexists. split; [reflexivity|].
  unfold tier_is_first. cbn [tier weight]. rewrite tier_loop_find.
  pose proof (find_first
                (fun td : Tier * TierData =>
                   in_range (employees_number (employees c)) (snd td))
                companyTiers) as H.
  destruct (find _ companyTiers) as [[t d]|].
  - left. exists d. split; [exact H | reflexivity].
  - right. repeat split; auto.
Qed.

Lemma no_range_below_one (n : number) (td : Tier * TierData) :
  is_nan n = true \/ le n (of_Z 0) = true ->
  In td companyTiers -> in_range n (snd td) = false.
Proof.
  intros Hn Hin. vm_compute in Hin.
  destruct Hin as [H|[H|[H|[H|[H|[]]]]]]; subst td;
    destruct n as [s|s| |s m e]; destruct Hn as [Hn|Hn];
      try discriminate; try reflexivity;
      destruct s; try discriminate; reflexivity.
Qed.

Lemma spec_ranges_partition (z : Z) :
  0 < z ->
  exists t, in_spec_range t z = true /\
            forall t', in_spec_range t' z = true -> t' = t.
Proof.
  intros Hz.
  assert (C : 1000 <= z \/ 250 <= z <= 999 \/ 50 <= z <= 249 \/
              10 <= z <= 49 \/ 1 <= z <= 9) by lia.
  destruct C as [C|[C|[C|[C|C]]]];
    [exists enterprise | exists large | exists medium | exists small
    | exists startup];
    (split; [unfold in_spec_range; decide_leb|]);
    intros [] H; try reflexivity; exfalso; revert H;
      unfold in_spec_range; decide_leb.
Qed.

Lemma every_tier_declared (t : Tier) :
  exists d, In (t, d) companyTiers /\ td_weight d = tier_weight t.
Proof.
  destruct t; eexists; (split; [simpl; auto 6 | reflexivity]).
Qed.

Lemma declared_tier_weight t d :
  In (t, d) companyTiers -> td_weight d = tier_weight t.
Proof.
  intros H. simpl in H.
  repeat (destruct H as [H|H]; [injection H as <- <-; reflexivity|]).
  destruct H.
Qed.

(** On an employee count that is a positive integer, [analyzeCompany]
    returns the tier whose interval holds the count, with its weight. *)
Lemma analyzeCompany_integer c n z :
  employees c = Some n -> valid n = true -> to_Z n = Some z -> 0 < z ->
  exists ca,
    analyzeCompany (Some c) = Return ca /\
    in_spec_range (tier ca) z = true /\
    weight ca = tier_weight (tier ca).
Proof.
  intros He Hv Hz Hpos.
  destruct (analyzeCompany_first_tier c) as [ca [Hca Hfirst]].
  exists ca. split; [exact Hca|]. rewrite He in Hfirst. cbn in Hfirst.
  destruct Hfirst as [[d [[pre [post [E [Hd _]]]] Hw]]|[Hnone _]].
  - assert (Hin : In (tier ca, d) companyTiers).
    { rewrite E. apply in_or_app. right. now left. }
    cbn [snd] in Hd.
    rewrite (in_range_integer n z _ _ Hv Hz Hpos Hin) in Hd.
    split; [exact Hd|]. rewrite Hw. now apply declared_tier_weight.
  - exfalso. destruct (spec_ranges_partition z Hpos) as [t [Ht _]].
    destruct (every_tier_declared t) as [d [Hin _]].
    specialize (Hnone _ Hin). cbn [snd] in Hnone.
    rewrite (in_range_integer n z _ _ Hv Hz Hpos Hin) in Hnone. congruence.
Qed.

(** C6. The tiers are declared in the order enterprise, large, medium,
    small, startup; [analyzeCompany] always returns, with the first tier in
    that order whose inclusive range holds the employee count, and with
    "startup" and weight 40 when no range does, which is the case when the
    count is absent, NaN, zero or negative; on a count that is a positive
    integer the range tests are the tests against the intervals [1,9],
    [10,49], [50,249], [250,999] and [1000,oo), exactly one of these holds
    every positive integer, and the tier returned is that one. *)
Theorem analyzeCompany_tier_spec :
  map fst companyTiers = [enterprise; large; medium; small; startup] /\
  (forall c, exists ca,
      analyzeCompany (Some c) = Return ca /\
      tier_is_first (employees_number (employees c)) ca) /\
  (forall c ca,
      analyzeCompany (Some c) = Return ca ->
      (employees c = None \/
       exists n, employees c = Some n /\
                 (is_nan n = true \/ le n (of_Z 0) = true)) ->
      tier ca = startup /\ weight ca = 40) /\
  (forall n z t d,
      valid n = true -> to_Z n = Some z -> 0 < z ->
      In (t, d) companyTiers ->
      in_range n d = in_spec_range t z) /\
  (forall z, 0 < z ->
      exists t, in_spec_range t z = true /\
                forall t', in_spec_range t' z = true -> t' = t) /\
  (forall c n z,
      employees c = Some n -> valid n = true -> to_Z n = Some z -> 0 < z ->
      exists ca,
        analyzeCompany (Some c) = Return ca /\
        in_spec_range (tier ca) z = true /\
        weight ca = tier_weight (tier ca)).
Proof.
  split; [reflexivity|].
  split; [exact analyzeCompany_first_tier|].
  split; [|split; [exact in_range_integer
                  |split; [exact spec_ranges_partition
                          |exact analyzeCompany_integer]]].
  intros c ca Hca He.
  assert (Hn : is_nan (employees_number (employees c)) = true \/
               le (employees_number (employees c)) (of_Z 0) = true).
  { destruct He as [->|[n [-> Hn]]]; [now left | exact Hn]. }
  destruct (analyzeCompany_first_tier c) as [ca' [Hca' Hfirst]].
  rewrite Hca in Hca'. injection Hca' as <-.
  destruct Hfirst as [[d [[pre [post [E [Hd _]]]] _]]|[_ H]]; [|exact H].
  exfalso.
  assert (Hin : In (tier ca, d) companyTiers).
  { rewrite E. apply in_or_app. right. now left. }
  pose proof (no_range_below_one _ _ Hn Hin) as Hf. simpl in Hd, Hf.
  congruence.
Qed.

(** The theorem at the employee counts 25 and -3. *)
Lemma analyzeCompany_tier_spec_witness :
  (exists ca,
      analyzeCompany (Some (company_of 25 VUndefined)) = Return ca /\
      in_spec_range (tier ca) 25 = true /\
      weight ca = tier_weight (tier ca)) /\
  forall ca,
    analyzeCompany (Some (company_of (-3) VUndefined)) = Return ca ->
    tier ca = startup /\ weight ca = 40.
Proof.
  destruct analyzeCompany_tier_spec as [_ [_ [Hlow [_ [_ Hint]]]]].
  split.
  - apply (Hint _ (of_Z 25)); [reflexivity | reflexivity | reflexivity | lia].
  - intros ca Hca. apply (Hlow _ ca Hca).
    right. exists (of_Z (-3)). split; [reflexivity|]. right. reflexivity.
Defined.

(** C8, as the claim states it, fails: an industry and a location that are
    present as empty strings are not returned verbatim but as "unknown". *)
Lemma empty_industry_reported_unknown :
  exists ca,
    analyzeCompany
      (Some (mkCompany (VStr "Acme") (Some (of_Z 25)) (VStr "") (VStr "")))
    = Return ca /\
    ca_industry ca = VStr "unknown" /\ ca_industry ca <> VStr "" /\
    ca_location ca = VStr "unknown" /\ ca_location ca <> VStr "".
Proof.
  eexists. split; [reflexivity|]. simpl. repeat split; discriminate.
Qed.

(** C8, amended. [analyzeCompany] passes [employees] through unchanged; it
    returns [industry] (respectively [location]) verbatim, not lowercased,
    when the field is truthy, in particular when it is a non-empty string,
    and returns "unknown" when the field is absent or otherwise falsy (the
    empty string, null, false, zero, NaN). *)
Theorem analyzeCompany_passthrough (c : CompanyData) :
  exists ca,
    analyzeCompany (Some c) = Return ca /\
    ca_employees ca = employees c /\
    (truthy (industry c) = true -> ca_industry ca = industry c) /\
    (truthy (industry c) = false -> ca_industry ca = VStr "unknown") /\
    (truthy (location c) = true -> ca_location ca = location c) /\
    (truthy (location c) = false -> ca_location ca = VStr "unknown") /\
    (forall s, s <> "" -> industry c = VStr s -> ca_industry ca = VStr s) /\
    (forall s, s <> "" -> location c = VStr s -> ca_location ca = VStr s) /\
    (industry c = VUndefined -> ca_industry ca = VStr "unknown") /\
    (location c = VUndefined -> ca_location ca = VStr "unknown").
Proof.
  rewrite analyzeCompany_returns. eexists. split; [reflexivity|].
  cbn [ca_employees ca_industry ca_location]. unfold js_or.
  split; [reflexivity|].
  repeat split.
  - now intros ->.
  - now intros ->.
  - now intros ->.
  - now intros ->.
  - intros s Hs ->. simpl. now destruct (String.eqb_spec s "").
  - intros s Hs ->. simpl. now destruct (String.eqb_spec s "").
  - now intros ->.
  - now intros ->.
Qed.

(** The theorem at a company whose industry is "SaaS" and whose location is
    absent. *)
Lemma analyzeCompany_passthrough_witness :
  exists ca,
    analyzeCompany
      (Some (mkCompany VUndefined (Some (of_Z 25)) (VStr "SaaS") VUndefined))
    = Return ca /\
    ca_employees ca = Some (of_Z 25) /\
    ca_industry ca = VStr "SaaS" /\
    ca_location ca = VStr "unknown".
Proof.
  destruct (analyzeCompany_passthrough
              (mkCompany VUndefined (Some (of_Z 25)) (VStr "SaaS") VUndefined))
    as [ca [H [He [Hi [_ [_ [Hl _]]]]]]].
  exists ca. split; [exact H|]. split; [exact He|].
  split; [apply Hi; reflexivity | apply Hl; reflexivity].
Defined.

(** ** generateInsights *)

Lemma Level_eqb_eq a b : Level_eqb a b = true <-> a = b.
Proof. destruct a, b; simpl; split; congruence. Qed.

Lemma Tier_eqb_eq a b : Tier_eqb a b = true <-> a = b.
Proof. destruct a, b; simpl; split; congruence. Qed.

Lemma c_level_insight_iff a :
  In insight_c_level (generateInsights a) <->
  level (jobAnalysis a) = c_level.
Proof.
  rewrite <- Level_eqb_eq.
  destruct (Level_eqb (level (jobAnalysis a)) c_level) eqn:E;
    unfold generateInsights, push; rewrite E;
    destruct (String.eqb _ _), (Tier_eqb _ _), (ge _ _); simpl;
    (split; [intros H; repeat (destruct H as [H|H]; try discriminate H);
             try reflexivity; try contradiction
            | intros H; try discriminate H; auto 6]).
Qed.

Lemma sales_insight_iff a :
  In insight_sales (generateInsights a) <->
  department (jobAnalysis a) = "sales".
Proof.
  unfold generateInsights, push.
  destruct (Level_eqb _ _),
    (String.eqb_spec (department (jobAnalysis a)) "sales"),
    (Tier_eqb _ _), (ge _ _); simpl;
    (split; [intros H; repeat (destruct H as [H|H]; try discriminate H);
             try assumption; try contradiction
            | intros H; try contradiction; auto 6]).
Qed.

Lemma enterprise_insight_iff a :
  In insight_enterprise (generateInsights a) <->
  tier (companyAnalysis a) = enterprise.
Proof.
  rewrite <- Tier_eqb_eq.
  destruct (Tier_eqb (tier (companyAnalysis a)) enterprise) eqn:E;
    unfold generateInsights, push; rewrite E;
    destruct (Level_eqb _ _), (String.eqb _ _), (ge _ _); simpl;
    (split; [intros H; repeat (destruct H as [H|H]; try discriminate H);
             try reflexivity; try contradiction
            | intros H; try discriminate H; auto 6]).
Qed.

Lemma prime_insight_iff a :
  In insight_prime (generateInsights a) <->
  ge (totalScore a) (of_Z 80) = true.
Proof.
  unfold generateInsights, push.
  destruct (Level_eqb _ _), (String.eqb _ _), (Tier_eqb _ _),
    (ge (totalScore a) (of_Z 80)); simpl;
    (split; [intros H; repeat (destruct H as [H|H]; try discriminate H);
             try reflexivity; try contradiction
            | intros H; try discriminate H; auto 6]).
Qed.

(** On a well-formed double that denotes an integer, [x >= 80] is the
    comparison of that integer with 80. *)
Lemma ge_80_integer (n : number) (z : Z) :
  valid n = true -> to_Z n = Some z ->
  ge n (of_Z 80) = (80 <=? z).
Proof.
  intros Hv Hz.
  destruct (Z.ltb_spec 0 z) as [Hpos|Hneg].
  - destruct (positive_integer_shape n z Hv Hz Hpos) as [m [e [-> [Hm Hs]]]].
    clear Hv Hz.
    change (2 ^ 52) with 4503599627370496 in Hm.
    change (2 ^ 53) with 9007199254740992 in Hm.
    unfold ge.
    change (of_Z 80) with (S754_finite false 5629499534213120 (-46)).
    rewrite SFleb_positive.
    destruct Hs as [[He Hz]|[He Hz]].
    + assert (Hbig : 4503599627370496 <= z).
      { assert (1 <= 2 ^ e) by (apply Z.lt_pred_le, Z.pow_pos_nonneg; lia).
        nia. }
      destruct (Z.compare_spec (-46) e); try lia; decide_leb.
    + each_exponent e (-1) 52%nat;
        match type of Hz with
        | context [2 ^ ?k] =>
            let v := eval vm_compute in (2 ^ k) in
            change (2 ^ k) with v in Hz
        end;
        cbn [Z.compare Z.opp Pos.compare Pos.compare_cont CompOpp];
        decide_leb.
  - destruct (Z.leb_spec 80 z) as [H|_]; [lia|].
    destruct n as [s|s| |s m e]; cbn [to_Z] in Hz; try discriminate;
      try reflexivity.
    destruct s; [reflexivity|]. exfalso. cbv zeta iota in Hz.
    destruct (Z.leb_spec 0 e) as [He|He].
    + assert (Hz' : Z.pos m * 2 ^ e = z) by congruence.
      assert (0 < 2 ^ e) by (apply Z.pow_pos_nonneg; lia).
      assert (0 < Z.pos m * 2 ^ e) by (apply Z.mul_pos_pos; lia). lia.
    + assert (Hk : 0 < 2 ^ (- e)) by (apply Z.pow_pos_nonneg; lia).
      destruct (Z.eqb_spec (Z.pos m mod 2 ^ (- e)) 0) as [Hm|Hm];
        [|discriminate].
      assert (Hz' : Z.pos m / 2 ^ (- e) = z) by congruence.
      apply Z.div_exact in Hm; [|lia]. rewrite Hz' in Hm.
      assert (2 ^ (- e) * z <= 0) by (apply Z.mul_nonneg_nonpos; lia). lia.
Qed.

(** C9. [generateInsights] returns the texts of those of its four rules, in
    their fixed order, whose condition holds: level "c_level", department
    exactly "sales", tier "enterprise", totalScore at least 80. Each text is
    in the result exactly when its own condition holds; on a totalScore that
    is an integer the last condition is that the integer is at least 80. The
    result has at most four entries and does not hold the sales text for
    "business development", which does count as sales-related for the score
    bonus. *)
Theorem generateInsights_rules (a : LeadAnalysis) :
  generateInsights a = map snd (filter (fun r => fst r a) insight_rules) /\
  List.length insight_rules = 4%nat /\
  (List.length (generateInsights a) <= 4)%nat /\
  (In insight_sales (generateInsights a) <->
   department (jobAnalysis a) = "sales") /\
  (department (jobAnalysis a) = "business development" ->
   sales_related (department (jobAnalysis a)) = true /\
   ~ In insight_sales (generateInsights a)) /\
  (In insight_c_level (generateInsights a) <->
   level (jobAnalysis a) = c_level) /\
  (In insight_enterprise (generateInsights a) <->
   tier (companyAnalysis a) = enterprise) /\
  (In insight_prime (generateInsights a) <->
   ge (totalScore a) (of_Z 80) = true) /\
  (forall z, valid (totalScore a) = true -> to_Z (totalScore a) = Some z ->
     (In insight_prime (generateInsights a) <-> 80 <= z)) /\
  generateInsights a =
    ((match level (jobAnalysis a) with
      | c_level => [insight_c_level]
      | _ => []
      end) ++
     (if String.eqb (department (jobAnalysis a)) "sales"
      then [insight_sales] else []) ++
     (match tier (companyAnalysis a) with
      | enterprise => [insight_enterprise]
      | _ => []
      end) ++
     (if ge (totalScore a) (of_Z 80) then [insight_prime] else []))%list.
Proof.
  pose proof (sales_insight_iff a) as Hsales.
  split.
  { unfold generateInsights, push, insight_rules. cbn [filter map fst snd].
    destruct (Level_eqb _ _), (String.eqb _ _), (Tier_eqb _ _), (ge _ _);
      reflexivity. }
  split; [reflexivity|].
  split.
  { unfold generateInsights, push.
    destruct (Level_eqb _ _), (String.eqb _ _), (Tier_eqb _ _), (ge _ _);
      simpl; lia. }
  split; [exact Hsales|].
  split.
  { intros Hbd. split; [now rewrite Hbd|].
    rewrite Hsales, Hbd. discriminate. }
  split; [apply c_level_insight_iff|].
  split; [apply enterprise_insight_iff|].
  split; [apply prime_insight_iff|].
  split.
  { intros z Hv Hz. rewrite prime_insight_iff, (ge_80_integer _ z Hv Hz).
    apply Z.leb_le. }
  unfold generateInsights, push.
  destruct (level (jobAnalysis a)), (tier (companyAnalysis a));
    cbn [Level_eqb Tier_eqb];
    destruct (String.eqb _ _), (ge _ _); reflexivity.
Qed.

(** The theorem at a business-development vice president of an enterprise,
    where three rules hold, and at a manager of a large company with
    totalScore 60, where none does. *)
Lemma generateInsights_rules_witness :
  generateInsights sample_analysis =
    [ "High-value C-level executive - excellent decision-making authority";
      "Large enterprise - potential for high-value deal";
      "Prime prospect - should be prioritized for immediate outreach" ] /\
  ~ In insight_sales (generateInsights sample_analysis) /\
  generateInsights manager_result = [] /\
  ~ In insight_c_level (generateInsights manager_result) /\
  ~ In insight_enterprise (generateInsights manager_result) /\
  ~ In insight_prime (generateInsights manager_result).
Proof.
  pose proof (generateInsights_rules sample_analysis) as S.
  pose proof (generateInsights_rules manager_result) as M.
  destruct S as [S1 [_ [_ [_ [S5 _]]]]].
  destruct M as [M1 [_ [_ [_ [_ [M6 [M7 [_ [M9 _]]]]]]]]].
  split; [exact S1|]. split; [exact (proj2 (S5 eq_refl))|].
  split; [exact M1|].
  split; [intros H; apply (proj1 M6) in H; discriminate H|].
  split; [intros H; apply (proj1 M7) in H; discriminate H|].
  intros H. apply (proj1 (M9 60 eq_refl eq_refl)) in H. lia.
Defined.

(** ** calculateLeadScore *)

Lemma analyzeJobTitle_cases (t : value) (ja : JobAnalysis) :
  analyzeJobTitle t = Return ja ->
  (truthy t = false /\ ja = unknown_job) \/
  (exists s, t = VStr s /\ s <> "" /\
     ja = mkJobAnalysis
            (max_matching_weight (toLowerCase s) jobTitleWeights)
            (level_of_weight (max_matching_weight (toLowerCase s) jobTitleWeights))
            (first_department (toLowerCase s))).
Proof.
  destruct (truthy t) eqn:Ht.
  - intros H. right. destruct t as [| |b|n|s|l|l];
      try (unfold analyzeJobTitle in H; rewrite Ht in H; discriminate H).
    assert (Hs : s <> "") by (intros ->; discriminate Ht).
    rewrite (analyzeJobTitle_string s Hs) in H. injection H as <-.
    exists s. auto.
  - unfold analyzeJobTitle. rewrite Ht. cbn [negb]. intros H.
    injection H as <-. now left.
Qed.

Lemma calculateLeadScore_inv j c r :
  calculateLeadScore j c = Return r ->
  exists j' c' ja ca key,
    j = Some j' /\ c = Some c' /\
    analyzeJobTitle (title j') = Return ja /\
    analyzeCompany (Some c') = Return ca /\
    call_toLowerCase (ca_industry ca) = Return key /\
    r = mkLeadAnalysis (Math_round (capped_score ja ca key)) ja ca
          (getPriorityLevel (capped_score ja ca key)).
Proof.
  unfold calculateLeadScore. destruct j as [j'|]; [|discriminate].
  cbn [bind]. destruct (analyzeJobTitle (title j')) as [ja|e] eqn:Hja;
    [|discriminate].
  cbn [bind]. destruct c as [c'|]; [|discriminate].
  destruct (analyzeCompany (Some c')) as [ca|e] eqn:Hca; [|discriminate].
  cbn [bind]. destruct (call_toLowerCase (ca_industry ca)) as [key|e] eqn:Hk;
    [|discriminate].
  cbn [bind]. intros H. injection H as <-.
  exists j', c', ja, ca, key. repeat split; auto.
Qed.

Lemma capped_score_compose ja ca key :
  capped_score ja ca key =
  compose (score ja) (weight ca) (sales_related (department ja))
    (industryMultiplier key).
Proof.
  unfold capped_score, compose.
  destruct (sales_related (department ja)); reflexivity.
Qed.

Lemma max_matching_weight_in nt table :
  In (max_matching_weight nt table) (0 :: map snd table).
Proof.
  destruct (max_matching_weight_attained nt table) as [[kw [Hin _]]|H0].
  - right. apply in_map_iff. exists (kw, max_matching_weight nt table). auto.
  - left. now rewrite H0.
Qed.

Lemma job_score_in t ja :
  analyzeJobTitle t = Return ja -> In (score ja) job_scores.
Proof.
  intros H. destruct (analyzeJobTitle_cases t ja H) as [[_ ->]|[s [_ [_ ->]]]].
  - now left.
  - apply max_matching_weight_in.
Qed.

Lemma tier_weight_in c ca :
  analyzeCompany (Some c) = Return ca -> In (weight ca) tier_weights.
Proof.
  rewrite analyzeCompany_returns. intros H.
  apply (f_equal (fun r => match r with Return x => weight x | Throw _ => 0 end))
    in H.
  cbv beta iota in H. cbn [weight] in H. rewrite <- H, tier_loop_find.
  destruct (find _ companyTiers) as [[t d]|] eqn:Hf.
  - right. apply find_some in Hf. destruct Hf as [Hin _].
    apply in_map_iff. exists (t, d). auto.
  - now left.
Qed.

Lemma lookup_in {A : Type} key (table : list (string * A)) v :
  lookup key table = Some v -> In v (map snd table).
Proof.
  induction table as [|[k x] table IH]; simpl; [discriminate|].
  destruct (String.eqb key k).
  - intros H. injection H as ->. now left.
  - intros H. right. auto.
Qed.

Lemma industryMultiplier_in key :
  inherited key = false -> In (industryMultiplier key) multiplier_values.
Proof.
  intros Hk. unfold industryMultiplier. rewrite Hk.
  destruct (lookup key industryMultipliers) as [m|] eqn:Hl; [|now left].
  destruct (number_truthy m); [|now left].
  right. exact (lookup_in _ _ _ Hl).
Qed.

Lemma industryMultiplier_inherited key :
  inherited key = true -> industryMultiplier key = NaN.
Proof.
  intros Hk. unfold industryMultiplier.
  destruct (lookup key industryMultipliers) as [m|] eqn:Hl;
    [|now rewrite Hk].
  exfalso. revert Hk Hl. unfold inherited, lookup, industryMultipliers,
    Object_prototype_keys, existsb.
  repeat match goal with
         | |- context [String.eqb key ?k] =>
             destruct (String.eqb_spec key k) as [->|?];
             [vm_compute; discriminate|]
         end.
  discriminate.
Qed.

Lemma industryMultiplier_cases key :
  In (industryMultiplier key) (NaN :: multiplier_values).
Proof.
  destruct (inherited key) eqn:Hk.
  - left. symmetry. now apply industryMultiplier_inherited.
  - right. now apply industryMultiplier_in.
Qed.


Lemma all_scores_satisfy_spec P scs ms sc w b m :
  all_scores_satisfy P scs ms = true ->
  In sc scs -> In w tier_weights -> In m ms ->
  P (compose sc w b m) = true.
Proof.
  unfold all_scores_satisfy. intros H Hsc Hw Hm.
  rewrite forallb_forall in H. specialize (H sc Hsc).
  rewrite forallb_forall in H. specialize (H w Hw).
  rewrite forallb_forall in H.
  assert (Hb : In b [true; false]) by (destruct b; simpl; auto).
  specialize (H b Hb).
  rewrite forallb_forall in H. exact (H m Hm).
Qed.


Lemma all_scores_integer_range :
  all_scores_satisfy (fun s => integer_in_range (Math_round s)) job_scores
    multiplier_values = true.
Proof. vm_compute. reflexivity. Qed.

Lemma zero_scores_stay_zero :
  all_scores_satisfy
    (fun s => is_positive_zero (Math_round s) &&
              Priority_eqb (getPriorityLevel s) very_low)
    [0] multiplier_values = true.
Proof. vm_compute. reflexivity. Qed.

Lemma Priority_eqb_eq a b : Priority_eqb a b = true -> a = b.
Proof. destruct a, b; simpl; congruence. Qed.





Lemma append_assoc (a b c : string) :
  ((a ++ b) ++ c)%string = (a ++ b ++ c)%string.
Proof. induction a as [|x a IH]; simpl; [reflexivity | now rewrite IH]. Qed.

Lemma substring_of_trans a b c :
  substring_of a b -> substring_of b c -> substring_of a c.
Proof.
  intros [p1 [q1 ->]] [p2 [q2 ->]].
  exists (p2 ++ p1)%string, (q1 ++ q2)%string.
  now rewrite !append_assoc.
Qed.

(** X1. Every title that holds "director" holds "cto", whose weight 95
    exceeds those of "director" and "senior director": no title receives the
    level "director". *)
Lemma director_level_unreachable t ja :
  analyzeJobTitle t = Return ja -> level ja <> director.
Proof.
  intros H. destruct (analyzeJobTitle_cases t ja H) as [[_ ->]|[s [_ [_ ->]]]];
    [discriminate|].
  cbn [level]. set (nt := toLowerCase s).
  intros Hl.
  assert (Hr : 80 <= max_matching_weight nt jobTitleWeights < 90).
  { revert Hl. unfold level_of_weight.
    repeat match goal with
           | |- context [?a >=? ?b] => destruct (Z.geb_spec a b)
           end; intros; try discriminate; lia. }
  assert (Hd : substring_of "director" nt).
  { destruct (max_matching_weight_attained nt jobTitleWeights)
      as [[kw [Hin Hk]]|H0]; [|lia].
    apply includes_spec in Hk. simpl in Hin.
    repeat (destruct Hin as [Hin|Hin];
            [injection Hin as <- Hw; try lia|]); try contradiction.
    - exact Hk.
    - apply substring_of_trans with "senior director"; [|exact Hk].
      now exists "senior ", "". }
  assert (Hc : substring_of "cto" nt).
  { apply substring_of_trans with "director"; [|exact Hd].
    now exists "dire", "r". }
  apply includes_spec in Hc.
  assert (Hin : In ("cto", 95) jobTitleWeights) by (simpl; auto 10).
  pose proof (max_matching_weight_bound nt _ _ _ Hin Hc). lia.
Qed.

(** C2. On the claim's own example, the title "Sales Director" at a company
    of 25 employees in the industry "saas", the code does not return
    totalScore 65 and level "director": "cto" is a substring of "director",
    so the job score is 95, the level "c_level" and totalScore 72 (the
    department is "sales", the tier "small" and the priority "medium", as
    claimed). *)
Theorem sales_director_scored_as_cto :
  exists r,
    calculateLeadScore (Some (job_of "Sales Director"))
      (Some (company_of 25 (VStr "saas"))) = Return r /\
    includes "sales director" "cto" = true /\
    score (jobAnalysis r) = 95 /\
    level (jobAnalysis r) = c_level /\
    department (jobAnalysis r) = "sales" /\
    tier (companyAnalysis r) = small /\
    to_Z (totalScore r) = Some 72 /\
    priority r = medium_priority.
Proof.
  eexists. split; [vm_compute; reflexivity|].
  repeat split; vm_compute; reflexivity.
Qed.

(** X2. For an industry that names no property inherited from
    [Object.prototype], totalScore is an integer from 0 to 100. *)
Lemma totalScore_integer_range j c r key :
  calculateLeadScore j c = Return r ->
  call_toLowerCase (ca_industry (companyAnalysis r)) = Return key ->
  inherited key = false ->
  exists z, to_Z (totalScore r) = Some z /\ 0 <= z <= 100.
Proof.
  intros H Hk Hinh.
  destruct (calculateLeadScore_inv j c r H)
    as [j' [c' [ja [ca [key' [-> [-> [Hja [Hca [Hkey ->]]]]]]]]]].
  cbn [totalScore jobAnalysis companyAnalysis] in *.
  assert (key' = key) as -> by congruence.
  pose proof (all_scores_satisfy_spec _ _ _ (score ja) (weight ca)
                (sales_related (department ja)) (industryMultiplier key)
                all_scores_integer_range (job_score_in _ _ Hja)
                (tier_weight_in _ _ Hca) (industryMultiplier_in key Hinh)) as P.
  cbv beta in P. rewrite <- capped_score_compose in P.
  unfold integer_in_range in P.
  destruct (to_Z (Math_round (capped_score ja ca key))) as [z|];
    [|discriminate].
  exists z. split; [reflexivity|].
  apply andb_true_iff in P. destruct P as [P1 P2].
  apply Z.leb_le in P1, P2. lia.
Qed.

(** C7. For the title "CEO" at a company of 1500 employees whose industry is
    "Constructor", the property read [industryMultipliers["constructor"]]
    finds the function inherited from [Object.prototype], the product is
    NaN, and totalScore is NaN, not an integer from 0 to 100. *)
Theorem inherited_industry_gives_NaN :
  exists r,
    calculateLeadScore (Some (job_of "CEO"))
      (Some (company_of 1500 (VStr "Constructor"))) = Return r /\
    totalScore r = NaN /\
    to_Z (totalScore r) = None /\
    priority r = very_low.
Proof.
  eexists. split; [vm_compute; reflexivity|].
  repeat split; vm_compute; reflexivity.
Qed.

(** A title that is absent, empty or without any job-title keyword gives the
    job score 0. *)
Lemma unmatched_title_scores_zero t ja :
  analyzeJobTitle t = Return ja ->
  (truthy t = false \/
   exists s, t = VStr s /\
     forall kw w, In (kw, w) jobTitleWeights ->
                  ~ substring_of kw (toLowerCase s)) ->
  score ja = 0.
Proof.
  intros H Ht.
  destruct (analyzeJobTitle_cases t ja H) as [[_ ->]|[s [-> [Hs ->]]]];
    [reflexivity|].
  destruct Ht as [Ht|[s' [E Hno]]].
  - exfalso. simpl in Ht. destruct (String.eqb_spec s ""); [contradiction|].
    discriminate.
  - injection E as <-. cbn [score].
    destruct (max_matching_weight_is_max (toLowerCase s))
      as [_ [[kw [Hin Hsub]]|[H0 _]]]; [|exact H0].
    exfalso. exact (Hno _ _ Hin Hsub).
Qed.

(** With a job score of 0 and an industry that names no property inherited
    from [Object.prototype], totalScore is 0 and the priority "very_low",
    whatever the company. *)
Lemma zero_job_score_absorbing j c r key :
  calculateLeadScore j c = Return r ->
  score (jobAnalysis r) = 0 ->
  call_toLowerCase (ca_industry (companyAnalysis r)) = Return key ->
  inherited key = false ->
  totalScore r = of_Z 0 /\ priority r = very_low.
Proof.
  intros H Hz Hk Hinh.
  destruct (calculateLeadScore_inv j c r H)
    as [j' [c' [ja [ca [key' [-> [-> [Hja [Hca [Hkey ->]]]]]]]]]].
  cbn [totalScore jobAnalysis companyAnalysis priority] in *.
  assert (key' = key) as -> by congruence.
  assert (Hin : In (score ja) [0]) by (left; auto).
  pose proof (all_scores_satisfy_spec _ _ _ (score ja) (weight ca)
                (sales_related (department ja)) (industryMultiplier key)
                zero_scores_stay_zero Hin
                (tier_weight_in _ _ Hca) (industryMultiplier_in key Hinh)) as P.
  cbv beta in P. rewrite <- capped_score_compose in P.
  apply andb_true_iff in P. destruct P as [P1 P2].
  split; [|now apply Priority_eqb_eq].
  destruct (Math_round (capped_score ja ca key)) as [[|]| | |]; try discriminate.
  reflexivity.
Qed.

(** C10. With an absent title, hence the job score 0, at a company whose
    industry is "constructor", the multiplier is NaN and totalScore is NaN
    rather than 0 (the priority is "very_low"). *)
Theorem zero_job_score_times_inherited_industry :
  exists r,
    calculateLeadScore (Some (mkJob VUndefined))
      (Some (company_of 1500 (VStr "constructor"))) = Return r /\
    score (jobAnalysis r) = 0 /\
    totalScore r = NaN /\
    totalScore r <> of_Z 0 /\
    priority r = very_low.
Proof.
  eexists. split; [vm_compute; reflexivity|].
  repeat split; try (vm_compute; reflexivity).
  vm_compute. discriminate.
Qed.

(** ** The batch handler *)

Lemma analyze_entry_object l index :
  analyze_entry (Some l) index = Return (entry_result l index).
Proof.
  unfold analyze_entry, entry_result. cbn [get bind].
  destruct (calculateLeadScore (job l) (company l)); reflexivity.
Qed.

Lemma map_entries_objects ls : forall index,
  map_entries (map Some ls) index = Return (entry_results ls index).
Proof.
  induction ls as [|l ls IH]; intros index; [reflexivity|].
  cbn [map map_entries entry_results].
  rewrite analyze_entry_object. cbn [bind]. rewrite IH. reflexivity.
Qed.

Lemma entry_results_length ls : forall index,
  List.length (entry_results ls index) = List.length ls.
Proof.
  induction ls as [|l ls IH]; intros index; simpl; [reflexivity|].
  now rewrite IH.
Qed.

Lemma entry_results_nth ls : forall index k l,
  nth_error ls k = Some l ->
  nth_error (entry_results ls index) k = Some (entry_result l (index + k)).
Proof.
  induction ls as [|a ls IH]; intros index k l H.
  - destruct k; discriminate.
  - destruct k as [|k]; simpl in H |- *.
    + injection H as ->. now rewrite Nat.add_0_r.
    + rewrite (IH (S index) k l H). do 2 f_equal. lia.
Qed.

(** X4. When every entry of the array is an object, the handler answers with
    [processed] equal to the number of entries, and the result at each
    position is a failure entry if scoring that entry throws and a success
    entry otherwise; its id is the entry's id when that is truthy and the
    position otherwise. *)
Lemma batch_of_objects ls :
  batch_analyze (Some (map Some ls)) =
    Json200 (List.length ls) (entry_results ls 0) /\
  forall k l,
    nth_error ls k = Some l ->
    exists r,
      nth_error (entry_results ls 0) k = Some r /\
      result_id r = (if truthy (id l) then id l else index_value k) /\
      match calculateLeadScore (job l) (company l) with
      | Return a => r = Success (result_id r) a (generateInsights a)
      | Throw e => r = Failure (result_id r) (message e)
      end.
Proof.
  split.
  - unfold batch_analyze. rewrite map_entries_objects.
    now rewrite entry_results_length.
  - intros k l H. exists (entry_result l k). split.
    + exact (entry_results_nth ls 0 k l H).
    + unfold entry_result, js_or.
      destruct (calculateLeadScore (job l) (company l)); auto.
Qed.

(** An entry without [job] becomes a failure entry and the others succeed. *)
Lemma batch_missing_job_isolated :
  exists r1 e r3,
    batch_analyze (Some batch_missing_job) =
      Json200 3 [r1; Failure (VStr "b") e; r3] /\
    success r1 = true /\ success r3 = true /\
    result_id r1 = VStr "a" /\ result_id r3 = VNum (of_Z 2).
Proof.
  do 3 eexists. split; [vm_compute; reflexivity|].
  repeat split.
Qed.

(** C3. A batch with a [null] entry is not answered entry by entry: reading
    [lead.job] throws inside the [try] block and reading [lead.id] throws
    again inside the [catch] block, so the exception leaves [map] and the
    handler answers 500 for the whole batch, with no [processed] count and no
    result for the well-formed entries. *)
Theorem batch_null_entry_aborts :
  batch_analyze (Some batch_with_null) =
    Json500 "Internal server error during batch analysis" /\
  (forall processed results,
      batch_analyze (Some batch_with_null) <> Json200 processed results).
Proof.
  assert (E : batch_analyze (Some batch_with_null) =
              Json500 "Internal server error during batch analysis")
    by (vm_compute; reflexivity).
  split; [exact E|]. intros p rs. rewrite E. discriminate.
Qed.

(** C4. In a batch whose entries carry the ids 7 and 0, the second result
    does not carry the caller's id 0 but the entry's position 1: [lead.id ||
    index] takes the falsy id 0 for a missing one. *)
Theorem batch_id_zero_replaced_by_index :
  exists r1 r2,
    batch_analyze (Some batch_numeric_ids) = Json200 2 [r1; r2] /\
    result_id r1 = VNum (of_Z 7) /\
    result_id r2 = VNum (of_Z 1) /\
    result_id r2 <> VNum (of_Z 0).
Proof.
  do 2 eexists. split; [vm_compute; reflexivity|].
  repeat split. vm_compute. discriminate.
Qed.

(** ** Worked examples *)

(** The specification's first example: a chief executive officer at a
    technology company of 1500 scores 110 before the cap, hence 100. *)
Example ceo_enterprise_technology :
  exists r,
    calculateLeadScore (Some (job_of "Chief Executive Officer"))
      (Some (company_of 1500 (VStr "Technology"))) = Return r /\
    score (jobAnalysis r) = 100 /\
    department (jobAnalysis r) = "unknown" /\
    tier (companyAnalysis r) = enterprise /\
    to_Z (totalScore r) = Some 100 /\
    priority r = high /\
    generateInsights r =
      [insight_c_level; insight_enterprise; insight_prime].
Proof.
  eexists. split; [vm_compute; reflexivity|].
  repeat split; vm_compute; reflexivity.
Qed.

(** Rounding happens on the double, not on the exact product: 45 * 0.7 is
    the double just below 31.5 and rounds to 31. *)
Example analyst_medium_company :
  exists r,
    calculateLeadScore (Some (job_of "Analyst"))
      (Some (company_of 100 VUndefined)) = Return r /\
    score (jobAnalysis r) = 45 /\
    to_Z (totalScore r) = Some 31.
Proof.
  eexists. split; [vm_compute; reflexivity|].
  repeat split; vm_compute; reflexivity.
Qed.

Example Math_round_ties :
  map (fun x => to_Z (Math_round x))
    [dec 595 1; dec 25 1; SFopp (dec 25 1); dec 49 2; of_Z 7]
  = [Some 60; Some 3; Some (-2); Some 0; Some 7].
Proof. vm_compute. reflexivity. Qed.

(** * Further properties of the engine and the handlers *)

Lemma ceo_result_computed :
  calculateLeadScore (Some (job_of "CEO"))
    (Some (company_of 1500 (VStr "technology"))) = Return ceo_result.
Proof. vm_compute. reflexivity. Qed.

Lemma sales_manager_result_computed :
  calculateLeadScore (Some (job_of "Sales Manager"))
    (Some (company_of 300 VUndefined)) = Return sales_manager_result.
Proof. vm_compute. reflexivity. Qed.

Lemma manager_result_computed :
  calculateLeadScore (Some (job_of "Manager"))
    (Some (company_of 300 VUndefined)) = Return manager_result.
Proof. vm_compute. reflexivity. Qed.

Lemma all_inputs_high_needs :
  all_inputs_satisfy high_needs job_scores (NaN :: multiplier_values) = true.
Proof. vm_compute. reflexivity. Qed.

Lemma all_scores_prime_and_high :
  all_scores_satisfy prime_and_high job_scores (NaN :: multiplier_values)
  = true.
Proof. vm_compute. reflexivity. Qed.

Lemma all_inputs_bonus_not_lower :
  all_inputs_satisfy bonus_not_lower job_scores multiplier_values = true.
Proof. vm_compute. reflexivity. Qed.

Lemma all_inputs_satisfy_spec P scs ms sc w b m :
  all_inputs_satisfy P scs ms = true ->
  In sc scs -> In w tier_weights -> In m ms ->
  P sc w b m = true.
Proof.
  unfold all_inputs_satisfy. intros H Hsc Hw Hm.
  rewrite forallb_forall in H. specialize (H sc Hsc).
  rewrite forallb_forall in H. specialize (H w Hw).
  rewrite forallb_forall in H.
  assert (Hb : In b [true; false]) by (destruct b; simpl; auto).
  specialize (H b Hb).
  rewrite forallb_forall in H. exact (H m Hm).
Qed.

(** ** When scoring throws *)

Lemma analyzeJobTitle_returns t :
  string_or_falsy t -> exists ja, analyzeJobTitle t = Return ja.
Proof.
  intros [Hf|[s ->]].
  - exists unknown_job. unfold analyzeJobTitle. now rewrite Hf.
  - destruct (String.eqb_spec s "") as [->|Hs].
    + exists unknown_job. reflexivity.
    + rewrite (analyzeJobTitle_string s Hs). eexists. reflexivity.
Qed.

Lemma analyzeJobTitle_returns_inv t ja :
  analyzeJobTitle t = Return ja -> string_or_falsy t.
Proof.
  intros H. destruct (analyzeJobTitle_cases t ja H) as [[Hf _]|[s [-> _]]].
  - now left.
  - right. now exists s.
Qed.

Lemma js_or_unknown_lowercase v :
  (exists key, call_toLowerCase (js_or v (VStr "unknown")) = Return key) <->
  string_or_falsy v.
Proof.
  unfold js_or, string_or_falsy. destruct (truthy v) eqn:Hv.
  - split.
    + intros [key H]. right. destruct v; try discriminate H. now eexists.
    + intros [Hf|[s ->]]; [discriminate|]. eexists. reflexivity.
  - split; [now left | intros _; eexists; reflexivity].
Qed.

Lemma scoring_returns_cases (j : JobData) (c : CompanyData) :
  (exists r, calculateLeadScore (Some j) (Some c) = Return r) <->
  string_or_falsy (title j) /\ string_or_falsy (industry c).
Proof.
  split.
  - intros [r H].
    destruct (calculateLeadScore_inv _ _ r H)
      as [j' [c' [ja [ca [key [Ej [Ec [Hja [Hca [Hkey _]]]]]]]]]].
    injection Ej as <-. injection Ec as <-. split.
    + exact (analyzeJobTitle_returns_inv _ _ Hja).
    + rewrite analyzeCompany_returns in Hca.
      apply (f_equal (fun x => match x with
                               | Return a => ca_industry a
                               | Throw _ => VUndefined
                               end)) in Hca.
      cbv beta iota in Hca. cbn [ca_industry] in Hca.
      apply js_or_unknown_lowercase. exists key. now rewrite Hca.
  - intros [Ht Hi].
    destruct (analyzeJobTitle_returns _ Ht) as [ja Hja].
    apply js_or_unknown_lowercase in Hi. destruct Hi as [key Hkey].
    unfold calculateLeadScore. cbn [bind]. rewrite Hja. cbn [bind].
    rewrite analyzeCompany_returns. cbn [bind ca_industry].
    rewrite Hkey. cbn [bind]. eexists. reflexivity.
Qed.

(** X6. On a company record whose [employees] is a number or absent, which
    is what [CompanyData] holds, [calculateLeadScore] returns exactly when
    both records are present, the title is falsy or a string, and the
    industry is falsy or a string; in every other such case it throws.
    Missing titles, employee counts, industries and locations never make it
    throw. *)
Theorem calculateLeadScore_returns_iff (j : option JobData)
  (c : option CompanyData) :
  (exists r, calculateLeadScore j c = Return r) <->
  (exists j' c',
      j = Some j' /\ c = Some c' /\
      string_or_falsy (title j') /\ string_or_falsy (industry c')).
Proof.
  split.
  - intros [r H].
    destruct (calculateLeadScore_inv j c r H)
      as [j' [c' [ja [ca [key [-> [-> _]]]]]]].
    exists j', c'. split; [reflexivity|]. split; [reflexivity|].
    apply scoring_returns_cases. now exists r.
  - intros [j' [c' [-> [-> H]]]]. now apply scoring_returns_cases.
Qed.

(** The theorem at a lead with no title and no industry, and at a lead whose
    title is a number. *)
Lemma calculateLeadScore_returns_iff_witness :
  (exists r,
      calculateLeadScore (Some (mkJob VUndefined))
        (Some (company_of 25 VUndefined)) = Return r) /\
  ~ (exists r,
        calculateLeadScore (Some (mkJob (VNum (of_Z 5))))
          (Some (company_of 25 VUndefined)) = Return r).
Proof.
  split.
  - apply (proj2 (calculateLeadScore_returns_iff _ _)).
    exists (mkJob VUndefined), (company_of 25 VUndefined).
    repeat split; left; reflexivity.
  - intros H.
    apply (proj1 (calculateLeadScore_returns_iff _ _)) in H.
    destruct H as [j' [c' [Hj [_ [[Hf|[s Hs]] _]]]]];
      injection Hj as <-; discriminate.
Defined.

(** X5. When the title is absent, empty or holds no job-title keyword, and
    the lowercased industry names no property inherited from
    [Object.prototype], [calculateLeadScore] returns totalScore 0 and the
    priority "very_low", whatever the company size, department and
    industry. *)
Theorem unmatched_title_scores_nothing j c r key :
  calculateLeadScore (Some j) c = Return r ->
  (truthy (title j) = false \/
   exists s, title j = VStr s /\
     forall kw w, In (kw, w) jobTitleWeights ->
                  ~ substring_of kw (toLowerCase s)) ->
  call_toLowerCase (ca_industry (companyAnalysis r)) = Return key ->
  inherited key = false ->
  score (jobAnalysis r) = 0 /\ totalScore r = of_Z 0 /\ priority r = very_low.
Proof.
  intros H Ht Hk Hinh.
  assert (Hz : score (jobAnalysis r) = 0).
  { destruct (calculateLeadScore_inv _ _ _ H)
      as [j' [c' [ja [ca [key' [Ej [-> [Hja [_ [_ ->]]]]]]]]]].
    injection Ej as <-. cbn [jobAnalysis].
    exact (unmatched_title_scores_zero _ _ Hja Ht). }
  split; [exact Hz|].
  exact (zero_job_score_absorbing _ _ _ _ H Hz Hk Hinh).
Qed.

(** The theorem at an untitled lead of a software enterprise. *)
Lemma unmatched_title_scores_nothing_witness :
  exists r,
    calculateLeadScore (Some (mkJob (VStr "")))
      (Some (company_of 5000 (VStr "Software"))) = Return r /\
    score (jobAnalysis r) = 0 /\ totalScore r = of_Z 0 /\
    priority r = very_low.
Proof.
  assert (E : calculateLeadScore (Some (mkJob (VStr "")))
                (Some (company_of 5000 (VStr "Software")))
              = Return (mkLeadAnalysis (of_Z 0) unknown_job
                          (mkCompanyAnalysis enterprise 100 (Some (of_Z 5000))
                             (VStr "Software") (VStr "unknown"))
                          very_low))
    by (vm_compute; reflexivity).
  eexists. split; [exact E|].
  apply (unmatched_title_scores_nothing _ _ _ "software" E);
    [left; reflexivity | reflexivity | reflexivity].
Defined.

(** ** The handlers *)

Lemma analyze_entry_null index :
  exists e, analyze_entry None index = Throw e.
Proof. eexists. reflexivity. Qed.

Lemma map_entries_null ls : forall index,
  In None ls -> exists e, map_entries ls index = Throw e.
Proof.
  induction ls as [|[l|] ls IH]; intros index Hin.
  - destruct Hin.
  - destruct Hin as [Hin|Hin]; [discriminate|].
    destruct (IH (S index) Hin) as [e He].
    cbn [map_entries]. rewrite analyze_entry_object. cbn [bind].
    rewrite He. cbn [bind]. now exists e.
  - eexists. reflexivity.
Qed.

Lemma all_objects (ls : list (option Lead)) :
  ~ In None ls -> exists ls', ls = map Some ls'.
Proof.
  induction ls as [|[l|] ls IH]; intros H.
  - now exists [].
  - destruct IH as [ls' ->]; [intros Hin; apply H; now right|].
    now exists (l :: ls').
  - exfalso. apply H. now left.
Qed.

(** X7. The batch handler answers 500 for the whole array exactly when
    some entry is [null]; otherwise it answers 200 with [processed] and the
    number of results both equal to the number of entries, whatever else is
    wrong with the entries. *)
Theorem batch_aborts_iff_null_entry (ls : list (option Lead)) :
  (In None ls ->
   batch_analyze (Some ls) =
   Json500 "Internal server error during batch analysis") /\
  (~ In None ls ->
   exists results,
     batch_analyze (Some ls) = Json200 (List.length ls) results /\
     List.length results = List.length ls).
Proof.
  split.
  - intros Hin. destruct (map_entries_null ls 0%nat Hin) as [e He].
    unfold batch_analyze. now rewrite He.
  - intros Hno. destruct (all_objects ls Hno) as [ls' ->].
    exists (entry_results ls' 0). unfold batch_analyze.
    rewrite map_entries_objects, entry_results_length, length_map. auto.
Qed.

(** The theorem at a batch with a [null] entry and at a batch whose second
    entry has no job. *)
Lemma batch_aborts_iff_null_entry_witness :
  batch_analyze (Some batch_with_null) =
    Json500 "Internal server error during batch analysis" /\
  exists results,
    batch_analyze (Some batch_missing_job) = Json200 3 results /\
    List.length results = 3%nat.
Proof.
  split.
  - apply (proj1 (batch_aborts_iff_null_entry batch_with_null)).
    right. left. reflexivity.
  - apply (proj2 (batch_aborts_iff_null_entry batch_missing_job)).
    intros [H|[H|[H|[]]]]; discriminate H.
Defined.

(** ** Priority, insights and what they need *)

Lemma Priority_eqb_refl p : Priority_eqb p p = true.
Proof. now destruct p. Qed.

(** X8. Every lead of priority "high" carries the prime-prospect insight.
    The converse holds except on the rounding gap: a lead that carries the
    insight has priority "high", or has totalScore exactly 80 and priority
    "medium". *)
Theorem high_priority_has_prime_insight j c r :
  calculateLeadScore j c = Return r ->
  (priority r = high -> In insight_prime (generateInsights r)) /\
  (In insight_prime (generateInsights r) ->
   priority r = high \/
   (priority r = medium_priority /\ to_Z (totalScore r) = Some 80)).
Proof.
  intros H. rewrite prime_insight_iff.
  destruct (calculateLeadScore_inv j c r H)
    as [j' [c' [ja [ca [key [-> [-> [Hja [Hca [Hkey ->]]]]]]]]]].
  cbn [totalScore priority].
  pose proof (all_scores_satisfy_spec _ _ _ (score ja) (weight ca)
                (sales_related (department ja)) (industryMultiplier key)
                all_scores_prime_and_high (job_score_in _ _ Hja)
                (tier_weight_in _ _ Hca) (industryMultiplier_cases key)) as P.
  rewrite <- capped_score_compose in P.
  set (s := capped_score ja ca key) in *.
  unfold prime_and_high in P.
  apply andb_true_iff in P. destruct P as [P1 P2]. split.
  - intros Hp. rewrite Hp in P1. exact P1.
  - intros Hg. rewrite Hg in P2. cbn [negb orb] in P2.
    apply orb_true_iff in P2. destruct P2 as [P2|P2].
    + left. now apply Priority_eqb_eq.
    + right. apply andb_true_iff in P2. destruct P2 as [Pm Pz].
      split; [now apply Priority_eqb_eq|].
      destruct (to_Z (Math_round s)) as [z|]; [|discriminate].
      apply Z.eqb_eq in Pz. now subst z.
Qed.

(** The theorem at a chief executive officer of a technology enterprise. *)
Lemma high_priority_has_prime_insight_witness :
  In insight_prime (generateInsights ceo_result).
Proof.
  exact (proj1 (high_priority_has_prime_insight _ _ _ ceo_result_computed)
           eq_refl).
Defined.

Lemma weight_of_tier c ca :
  analyzeCompany (Some c) = Return ca -> weight ca = tier_weight (tier ca).
Proof.
  intros H. destruct (analyzeCompany_first_tier c) as [ca' [Hca' Hfirst]].
  rewrite H in Hca'. injection Hca' as <-.
  destruct Hfirst as [[d [[pre [post [E _]]] Hw]]|[_ [-> ->]]];
    [|reflexivity].
  rewrite Hw. apply declared_tier_weight.
  rewrite E. apply in_or_app. right. now left.
Qed.

(** X9. A lead of priority "high" has a job score of at least 65 and works
    at a company of weight at least 70, that is of tier medium, large or
    enterprise: no title reaches "high" at a small company or a startup,
    whatever the department and the industry. *)
Theorem high_priority_requirements j c r :
  calculateLeadScore j c = Return r ->
  priority r = high ->
  65 <= score (jobAnalysis r) /\
  70 <= weight (companyAnalysis r) /\
  (tier (companyAnalysis r) = medium \/ tier (companyAnalysis r) = large \/
   tier (companyAnalysis r) = enterprise).
Proof.
  intros H Hp.
  destruct (calculateLeadScore_inv j c r H)
    as [j' [c' [ja [ca [key [-> [-> [Hja [Hca [Hkey ->]]]]]]]]]].
  cbn [jobAnalysis companyAnalysis priority] in *.
  pose proof (all_inputs_satisfy_spec _ _ _ (score ja) (weight ca)
                (sales_related (department ja)) (industryMultiplier key)
                all_inputs_high_needs (job_score_in _ _ Hja)
                (tier_weight_in _ _ Hca) (industryMultiplier_cases key)) as P.
  unfold high_needs in P. rewrite <- capped_score_compose, Hp in P.
  cbn [Priority_eqb negb orb] in P.
  apply andb_true_iff in P. destruct P as [P1 P2].
  apply Z.leb_le in P1, P2.
  split; [exact P1|]. split; [exact P2|].
  rewrite (weight_of_tier _ _ Hca) in P2.
  destruct (tier ca); simpl in P2; auto; lia.
Qed.

(** The theorem at a chief executive officer of a technology enterprise. *)
Lemma high_priority_requirements_witness :
  65 <= score (jobAnalysis ceo_result) /\
  70 <= weight (companyAnalysis ceo_result) /\
  (tier (companyAnalysis ceo_result) = medium \/
   tier (companyAnalysis ceo_result) = large \/
   tier (companyAnalysis ceo_result) = enterprise).
Proof.
  exact (high_priority_requirements _ _ _ ceo_result_computed eq_refl).
Defined.

(** X15. A lead carries the C-level insight exactly when its job score is at
    least 90. *)
Theorem c_level_insight_iff_score j c r :
  calculateLeadScore j c = Return r ->
  (In insight_c_level (generateInsights r) <-> 90 <= score (jobAnalysis r)).
Proof.
  intros H. rewrite c_level_insight_iff.
  destruct (calculateLeadScore_inv j c r H)
    as [j' [c' [ja [ca [key [-> [-> [Hja [Hca [Hkey ->]]]]]]]]]].
  cbn [jobAnalysis].
  destruct (analyzeJobTitle_cases _ _ Hja) as [[_ ->]|[s [_ [_ ->]]]].
  - simpl. split; [discriminate | lia].
  - cbn [level score].
    set (m := max_matching_weight (toLowerCase s) jobTitleWeights).
    unfold level_of_weight.
    repeat match goal with
           | |- context [?a >=? ?b] => destruct (Z.geb_spec a b)
           end; split; intros; try discriminate; try reflexivity; lia.
Qed.

(** The theorem at a chief executive officer of a technology enterprise. *)
Lemma c_level_insight_iff_score_witness :
  In insight_c_level (generateInsights ceo_result) <->
  90 <= score (jobAnalysis ceo_result).
Proof. exact (c_level_insight_iff_score _ _ _ ceo_result_computed). Defined.

(** X19. Of two leads with the same job score, company weight and industry,
    the one whose department is sales-related has at least the totalScore
    and at least the priority of the other, when the industry names no
    property inherited from [Object.prototype]. *)
Theorem sales_bonus_never_lowers j1 c1 r1 j2 c2 r2 key :
  calculateLeadScore j1 c1 = Return r1 ->
  calculateLeadScore j2 c2 = Return r2 ->
  score (jobAnalysis r1) = score (jobAnalysis r2) ->
  weight (companyAnalysis r1) = weight (companyAnalysis r2) ->
  call_toLowerCase (ca_industry (companyAnalysis r1)) = Return key ->
  call_toLowerCase (ca_industry (companyAnalysis r2)) = Return key ->
  inherited key = false ->
  sales_related (department (jobAnalysis r1)) = false ->
  sales_related (department (jobAnalysis r2)) = true ->
  le (totalScore r1) (totalScore r2) = true /\
  priority_rank (priority r1) <= priority_rank (priority r2).
Proof.
  intros H1 H2 Hs Hw Hk1 Hk2 Hinh Hd1 Hd2.
  destruct (calculateLeadScore_inv _ _ _ H1)
    as [j1' [c1' [ja1 [ca1 [k1 [-> [-> [Hja1 [Hca1 [Hkey1 ->]]]]]]]]]].
  destruct (calculateLeadScore_inv _ _ _ H2)
    as [j2' [c2' [ja2 [ca2 [k2 [-> [-> [Hja2 [Hca2 [Hkey2 ->]]]]]]]]]].
  cbn [jobAnalysis companyAnalysis totalScore priority] in *.
  assert (k1 = key) as -> by congruence.
  assert (k2 = key) as -> by congruence.
  pose proof (all_inputs_satisfy_spec _ _ _ (score ja1) (weight ca1)
                true (industryMultiplier key)
                all_inputs_bonus_not_lower (job_score_in _ _ Hja1)
                (tier_weight_in _ _ Hca1) (industryMultiplier_in key Hinh))
    as P.
  unfold bonus_not_lower in P.
  rewrite !capped_score_compose, Hd1, Hd2, <- Hs, <- Hw.
  apply andb_true_iff in P. destruct P as [P1 P2].
  apply Z.leb_le in P2. auto.
Qed.

(** The theorem at a manager and a sales manager of the same company. *)
Lemma sales_bonus_never_lowers_witness :
  le (totalScore manager_result) (totalScore sales_manager_result) = true /\
  priority_rank (priority manager_result) <=
  priority_rank (priority sales_manager_result).
Proof.
  exact (sales_bonus_never_lowers _ _ _ _ _ _ "unknown"
           manager_result_computed sales_manager_result_computed
           eq_refl eq_refl eq_refl eq_refl eq_refl eq_refl eq_refl).
Defined.

(** ** Titles *)

Lemma lower_char_idempotent c : lower_char (lower_char c) = lower_char c.
Proof. destruct c as [[] [] [] [] [] [] [] []]; reflexivity. Qed.

Lemma toLowerCase_idempotent s : toLowerCase (toLowerCase s) = toLowerCase s.
Proof.
  induction s as [|c s IH]; simpl; [reflexivity|].
  now rewrite lower_char_idempotent, IH.
Qed.

Lemma analyzeJobTitle_by_lowercase s :
  analyzeJobTitle (VStr s) =
  if String.eqb s "" then Return unknown_job
  else Return (mkJobAnalysis
                 (max_matching_weight (toLowerCase s) jobTitleWeights)
                 (level_of_weight
                    (max_matching_weight (toLowerCase s) jobTitleWeights))
                 (first_department (toLowerCase s))).
Proof.
  destruct (String.eqb_spec s "") as [->|Hs]; [reflexivity|].
  now apply analyzeJobTitle_string.
Qed.

(** X13. The analysis of a title does not depend on the case of its
    letters: two titles with the same lowercase form get the same result, and
    so do a title and its lowercase form. *)
Theorem title_case_insensitive (s1 s2 : string) :
  toLowerCase s1 = toLowerCase s2 ->
  analyzeJobTitle (VStr s1) = analyzeJobTitle (VStr s2) /\
  analyzeJobTitle (VStr (toLowerCase s1)) = analyzeJobTitle (VStr s1).
Proof.
  intros H.
  assert (E : forall a b, toLowerCase a = toLowerCase b ->
                          String.eqb a "" = String.eqb b "").
  { intros a b Hab. destruct a, b; try reflexivity; discriminate Hab. }
  split.
  - rewrite !analyzeJobTitle_by_lowercase, (E s1 s2 H), H. reflexivity.
  - rewrite !analyzeJobTitle_by_lowercase, toLowerCase_idempotent.
    rewrite (E (toLowerCase s1) s1 (toLowerCase_idempotent s1)). reflexivity.
Qed.

(** The theorem at "CEO" and "Ceo". *)
Lemma title_case_insensitive_witness :
  analyzeJobTitle (VStr "CEO") = analyzeJobTitle (VStr "Ceo") /\
  analyzeJobTitle (VStr "ceo") = analyzeJobTitle (VStr "CEO").
Proof. exact (title_case_insensitive "CEO" "Ceo" eq_refl). Defined.

(** X14. A title that holds "sales" gets the department "sales", which
    earns the bonus, whichever other department keywords it holds and
    wherever they stand in the title. *)
Theorem sales_keyword_wins (s : string) :
  substring_of "sales" (toLowerCase s) ->
  exists ja,
    analyzeJobTitle (VStr s) = Return ja /\
    department ja = "sales" /\
    sales_related (department ja) = true.
Proof.
  intros H.
  assert (Hs : s <> "").
  { intros ->. destruct H as [pre [post E]].
    destruct pre; discriminate E. }
  rewrite (analyzeJobTitle_string s Hs). eexists. split; [reflexivity|].
  cbn [department]. apply includes_spec in H.
  unfold first_department, departmentWeights. cbn [find fst]. rewrite H.
  split; reflexivity.
Qed.

(** The theorem at "Marketing and Sales Manager". *)
Lemma sales_keyword_wins_witness :
  exists ja,
    analyzeJobTitle (VStr "Marketing and Sales Manager") = Return ja /\
    department ja = "sales" /\
    sales_related (department ja) = true.
Proof.
  apply sales_keyword_wins.
  exists "marketing and ", " manager". reflexivity.
Defined.

(** ** Order on numbers *)

Lemma SFltb_positive m1 e1 m2 e2 :
  SFltb (S754_finite false m1 e1) (S754_finite false m2 e2) =
  match e1 ?= e2 with
  | Lt => true
  | Gt => false
  | Eq => Zpos m1 <? Zpos m2
  end.
Proof. unfold SFltb, SFcompare. destruct (e1 ?= e2); reflexivity. Qed.

Ltac eval_literals :=
  repeat match goal with
         | |- context [of_Z ?k] =>
             let v := eval vm_compute in (of_Z k) in
             change (of_Z k) with v
         | H : context [of_Z ?k] |- _ =>
             let v := eval vm_compute in (of_Z k) in
             change (of_Z k) with v in H
         end.

Ltac compare_exponents e :=
  repeat match goal with
         | H : context [?a ?= e] |- _ =>
             destruct (Z.compare_spec a e); try discriminate H
         | H : context [e ?= ?a] |- _ =>
             destruct (Z.compare_spec e a); try discriminate H
         | |- context [?a ?= e] => destruct (Z.compare_spec a e)
         | |- context [e ?= ?a] => destruct (Z.compare_spec e a)
         end.

Ltac decide_order :=
  repeat match goal with
         | H : (_ <? _) = true |- _ => apply Z.ltb_lt in H
         | H : (_ <=? _) = true |- _ => apply Z.leb_le in H
         | |- context [?a <=? ?b] => destruct (Z.leb_spec a b)
         | |- context [?a <? ?b] => destruct (Z.ltb_spec a b)
         end;
  simpl; try reflexivity; try discriminate; try lia.

Lemma no_range_between (n : number) (td : Tier * TierData) :
  lt n (of_Z 1) = true \/ strictly_between 9 10 n \/
  strictly_between 49 50 n \/ strictly_between 249 250 n \/
  strictly_between 999 1000 n ->
  In td companyTiers -> in_range n (snd td) = false.
Proof.
  intros Hn Hin. vm_compute in Hin.
  unfold strictly_between, lt in Hn.
  destruct n as [s|s| |s m e].
  - destruct Hin as [H|[H|[H|[H|[H|[]]]]]]; subst td; reflexivity.
  - destruct s.
    + destruct Hin as [H|[H|[H|[H|[H|[]]]]]]; subst td; reflexivity.
    + exfalso. destruct Hn as [H|[[_ H]|[[_ H]|[[_ H]|[_ H]]]]];
        discriminate H.
  - exfalso. destruct Hn as [H|[[_ H]|[[_ H]|[[_ H]|[_ H]]]]];
      discriminate H.
  - destruct s.
    + destruct Hin as [H|[H|[H|[H|[H|[]]]]]]; subst td; reflexivity.
    + eval_literals. rewrite !SFltb_positive in Hn.
      destruct Hin as [H|[H|[H|[H|[H|[]]]]]]; subst td;
        unfold in_range, ge, le; cbn [snd employee_range];
        rewrite ?SFleb_positive;
        (destruct Hn as [H|[[H1 H2]|[[H1 H2]|[[H1 H2]|[H1 H2]]]]];
         compare_exponents e; subst; decide_order).
Qed.

(** X11. An employee count that lies strictly between two declared ranges
    (between 9 and 10, 49 and 50, 249 and 250, or 999 and 1000) or below 1
    matches no tier, so [analyzeCompany] answers the fallback: tier
    "startup" with weight 40. A count of 999.5 is thus a startup, not a
    large company. *)
Theorem fractional_counts_fall_to_startup (c : CompanyData) (n : number) :
  employees c = Some n ->
  lt n (of_Z 1) = true \/ strictly_between 9 10 n \/
  strictly_between 49 50 n \/ strictly_between 249 250 n \/
  strictly_between 999 1000 n ->
  exists ca,
    analyzeCompany (Some c) = Return ca /\
    tier ca = startup /\ weight ca = 40.
Proof.
  intros He Hn.
  destruct (analyzeCompany_first_tier c) as [ca [Hca Hfirst]].
  exists ca. split; [exact Hca|].
  rewrite He in Hfirst. cbn [employees_number] in Hfirst.
  destruct Hfirst as [[d [[pre [post [E [Hd _]]]] _]]|[_ H]]; [|exact H].
  exfalso.
  assert (Hin : In (tier ca, d) companyTiers).
  { rewrite E. apply in_or_app. right. now left. }
  pose proof (no_range_between n _ Hn Hin) as Hf. cbn [snd] in Hd, Hf.
  congruence.
Qed.

(** The theorem at 999.5 employees. *)
Lemma fractional_counts_fall_to_startup_witness :
  exists ca,
    analyzeCompany (Some (company_of_number (dec 9995 1))) = Return ca /\
    tier ca = startup /\ weight ca = 40.
Proof.
  apply (fractional_counts_fall_to_startup
           (company_of_number (dec 9995 1)) (dec 9995 1) eq_refl).
  right. right. right. right. split; reflexivity.
Defined.

(** X12. On employee counts that are positive integers the company weight
    grows with the count: a company with at least as many employees never
    gets a smaller weight. *)
Theorem tier_weight_monotone (c1 c2 : CompanyData) (n1 n2 : number)
  (z1 z2 : Z) :
  employees c1 = Some n1 -> employees c2 = Some n2 ->
  valid n1 = true -> valid n2 = true ->
  to_Z n1 = Some z1 -> to_Z n2 = Some z2 ->
  0 < z1 <= z2 ->
  exists ca1 ca2,
    analyzeCompany (Some c1) = Return ca1 /\
    analyzeCompany (Some c2) = Return ca2 /\
    weight ca1 <= weight ca2.
Proof.
  intros E1 E2 V1 V2 Z1 Z2 Hz.
  destruct (analyzeCompany_integer c1 n1 z1 E1 V1 Z1) as [ca1 [H1 [R1 W1]]];
    [lia|].
  destruct (analyzeCompany_integer c2 n2 z2 E2 V2 Z2) as [ca2 [H2 [R2 W2]]];
    [lia|].
  exists ca1, ca2. split; [exact H1|]. split; [exact H2|].
  rewrite W1, W2.
  destruct (tier ca1), (tier ca2); unfold in_spec_range in R1, R2;
    repeat match goal with
           | H : (_ && _) = true |- _ =>
               apply andb_true_iff in H; destruct H
           | H : (_ <=? _) = true |- _ => apply Z.leb_le in H
           end; simpl; lia.
Qed.

(** The theorem at companies of 25 and 300 employees. *)
Lemma tier_weight_monotone_witness :
  exists ca1 ca2,
    analyzeCompany (Some (company_of 25 VUndefined)) = Return ca1 /\
    analyzeCompany (Some (company_of 300 VUndefined)) = Return ca2 /\
    weight ca1 <= weight ca2.
Proof.
  apply (tier_weight_monotone (company_of 25 VUndefined)
           (company_of 300 VUndefined) (of_Z 25) (of_Z 300) 25 300);
    try reflexivity. lia.
Defined.

Lemma ge_monotone (mc : positive) (ec : Z) (s1 s2 : number) :
  le s1 s2 = true ->
  ge s1 (S754_finite false mc ec) = true ->
  ge s2 (S754_finite false mc ec) = true.
Proof.
  unfold le, ge.
  destruct s1 as [[]|[]| |[] m1 e1], s2 as [[]|[]| |[] m2 e2];
    try discriminate; try reflexivity.
  rewrite !SFleb_positive. intros H1 H2.
  destruct (Z.compare_spec e1 e2), (Z.compare_spec ec e1),
    (Z.compare_spec ec e2); try discriminate; try reflexivity; lia.
Qed.

(** X16. [getPriorityLevel] is monotone: a score that is at least another
    never gets a lower priority. *)
Theorem getPriorityLevel_monotone (s1 s2 : number) :
  le s1 s2 = true ->
  priority_rank (getPriorityLevel s1) <= priority_rank (getPriorityLevel s2).
Proof.
  intros H. unfold getPriorityLevel.
  pose proof (ge_monotone 5629499534213120 (-46) s1 s2 H) as H80.
  pose proof (ge_monotone 8444249301319680 (-47) s1 s2 H) as H60.
  pose proof (ge_monotone 5629499534213120 (-47) s1 s2 H) as H40.
  change (S754_finite false 5629499534213120 (-46)) with (of_Z 80) in H80.
  change (S754_finite false 8444249301319680 (-47)) with (of_Z 60) in H60.
  change (S754_finite false 5629499534213120 (-47)) with (of_Z 40) in H40.
  destruct (ge s1 (of_Z 80)); [rewrite (H80 eq_refl); simpl; lia|].
  destruct (ge s1 (of_Z 60)).
  { rewrite (H60 eq_refl). destruct (ge s2 (of_Z 80)); simpl; lia. }
  destruct (ge s1 (of_Z 40)).
  { rewrite (H40 eq_refl).
    destruct (ge s2 (of_Z 80)), (ge s2 (of_Z 60)); simpl; lia. }
  destruct (ge s2 (of_Z 80)), (ge s2 (of_Z 60)), (ge s2 (of_Z 40));
    simpl; lia.
Qed.

(** The theorem at the scores 59.5 and 60. *)
Lemma getPriorityLevel_monotone_witness :
  priority_rank (getPriorityLevel (dec 595 1)) <=
  priority_rank (getPriorityLevel (of_Z 60)).
Proof. exact (getPriorityLevel_monotone (dec 595 1) (of_Z 60) eq_refl). Defined.

(** ** Director titles *)

(** X20. A title that holds "director" also holds "cto": its job score is
    at least 95 and its level is "c_level", never "director". *)
Theorem director_titles_are_c_level (s : string) :
  substring_of "director" (toLowerCase s) ->
  exists ja,
    analyzeJobTitle (VStr s) = Return ja /\
    95 <= score ja /\ level ja = c_level.
Proof.
  intros H.
  assert (Hs : s <> "").
  { intros ->. destruct H as [pre [post E]].
    destruct pre; discriminate E. }
  rewrite (analyzeJobTitle_string s Hs). eexists. split; [reflexivity|].
  cbn [score level].
  assert (Hc : substring_of "cto" (toLowerCase s)).
  { apply substring_of_trans with "director"; [|exact H].
    now exists "dire", "r". }
  apply includes_spec in Hc.
  assert (Hin : In ("cto", 95) jobTitleWeights) by (simpl; auto 10).
  pose proof (max_matching_weight_bound _ _ _ _ Hin Hc) as Hb.
  split; [exact Hb|].
  unfold level_of_weight.
  destruct (Z.geb_spec (max_matching_weight (toLowerCase s) jobTitleWeights) 90);
    [reflexivity | lia].
Qed.

(** The theorem at "Sales Director". *)
Lemma director_titles_are_c_level_witness :
  exists ja,
    analyzeJobTitle (VStr "Sales Director") = Return ja /\
    95 <= score ja /\ level ja = c_level.
Proof.
  apply director_titles_are_c_level.
  exists "sales ", "". reflexivity.
Defined.

(** ** The earlier properties at sample inputs *)

Lemma sales_director_analysis :
  analyzeJobTitle (VStr "Sales Director") =
  Return (mkJobAnalysis 95 c_level "sales").
Proof. vm_compute. reflexivity. Qed.

(** [director_level_unreachable] at "Sales Director". *)
Lemma director_level_unreachable_witness :
  level (mkJobAnalysis 95 c_level "sales") <> director.
Proof.
  exact (director_level_unreachable _ _ sales_director_analysis).
Defined.

(** [totalScore_integer_range] at a chief executive officer of a technology
    enterprise. *)
Lemma totalScore_integer_range_witness :
  exists z, to_Z (totalScore ceo_result) = Some z /\ 0 <= z <= 100.
Proof.
  exact (totalScore_integer_range _ _ _ "technology" ceo_result_computed
           eq_refl eq_refl).
Defined.


(** [batch_of_objects] at the batch of the single lead "a". *)
Lemma batch_of_objects_witness :
  exists r,
    nth_error (entry_results [sample_lead] 0) 0 = Some r /\
    result_id r =
      (if truthy (id sample_lead) then id sample_lead else index_value 0) /\
    match calculateLeadScore (job sample_lead) (company sample_lead) with
    | Return a => r = Success (result_id r) a (generateInsights a)
    | Throw e => r = Failure (result_id r) (message e)
    end.
Proof.
  exact (proj2 (batch_of_objects [sample_lead]) 0%nat sample_lead eq_refl).
Defined.
